(** * etl.py: a Spark batch job building a star schema from song and log data

    A shallow embedding of [src/etl.py] and the properties of its two
    stages.  The Spark and Python library calls the script makes
    ([spark.read.json], [DataFrame.select], [dropDuplicates],
    [write.mode('overwrite')], [spark.sql], [datetime.fromtimestamp], ...)
    are modelled by small executable definitions; the script's own
    functions ([process_song_data], [process_log_data], [main] and the
    module-level configuration code) are transcribed statement by
    statement on top of them. *)

From Stdlib Require Import ZArith List Bool Lia Ascii String.
From Stdlib Require Import Floats.SpecFloat.
From stdpp Require Import gmap strings pretty list fin_maps.

(** ** Values, rows and errors *)

(** A cell of a Spark row.  [VInt] stands for Spark's integral types,
    [VDouble] for an IEEE binary64, [VTimestamp] for a SQL timestamp
    (microseconds since the epoch). *)
Inductive value : Type :=
| VNull
| VInt (z : Z)
| VDouble (f : spec_float)
| VStr (s : string)
| VTimestamp (us : Z).

#[global] Instance spec_float_eq_dec : EqDecision spec_float.
Proof. solve_decision. Defined.

#[global] Instance value_eq_dec : EqDecision value.
Proof. solve_decision. Defined.

(** What the script can die of.  Nothing in [etl.py] catches an exception,
    so each of these ends the run. *)
Inductive error : Type :=
| AnalysisException (what : string)   (* Spark: unresolved column, table, path *)
| PythonException (what : string)     (* a Python UDF raised inside a Spark job *)
| AttributeError (what : string)      (* [df.name] for a name that is no column *)
| KeyError (key : string)
| TypeError (what : string)
| ParseException (what : string)      (* Spark: the SQL text does not parse *)
| ConfigParserError (what : string).  (* configparser: the file is rejected *)

Inductive result (A : Type) : Type :=
| Ok (a : A)
| Err (e : error).
Arguments Ok {A} a.
Arguments Err {A} e.

Definition is_ok {A} (r : result A) : bool :=
  match r with Ok _ => true | Err _ => false end.

Definition rbind {A B} (r : result A) (k : A -> result B) : result B :=
  match r with Ok a => k a | Err e => Err e end.

Definition rmap {A B} (f : A -> B) (r : result A) : result B :=
  rbind r (fun a => Ok (f a)).

(** [traverse f l]: apply the fallible [f] to every element, left to
    right, stopping at the first error. *)
Fixpoint traverse {A B} (f : A -> result B) (l : list A) : result (list B) :=
  match l with
  | [] => Ok []
  | x :: l' => rbind (f x) (fun y => rmap (cons y) (traverse f l'))
  end.

(** A row: named fields in schema order. *)
Definition Row : Type := list (string * value).

Fixpoint field (c : string) (r : Row) : option value :=
  match r with
  | [] => None
  | (c', v) :: r' => if decide (c = c') then Some v else field c r'
  end.

(** A field a record does not carry reads as null, as when Spark fills
    the inferred schema of a JSON record that lacks the key. *)
Definition get (c : string) (r : Row) : value := default VNull (field c r).

(** [set_field c v r]: replace field [c] in place, or append it. *)
Fixpoint set_field (c : string) (v : value) (r : Row) : Row :=
  match r with
  | [] => [(c, v)]
  | (c', v') :: r' =>
      if decide (c = c') then (c, v) :: r' else (c', v') :: set_field c v r'
  end.

(** ** DataFrames

    Spark analyses a plan when the DataFrame is built (its columns are
    known and checked at once) and computes its rows only when an action
    runs.  [columns] is the analysed schema; [data] is what the rows
    evaluate to at an action: the rows, or the exception the job dies
    of. *)
Record DataFrame : Type := mkDF {
  columns : list string;
  data : result (list Row)
}.

#[global] Instance error_eq_dec : EqDecision error.
Proof. solve_decision. Defined.

#[global] Instance result_eq_dec {A} `{EqDecision A} : EqDecision (result A).
Proof. solve_decision. Defined.

#[global] Instance DataFrame_eq_dec : EqDecision DataFrame.
Proof. solve_decision. Defined.

Definition has_columns (cs : list string) (df : DataFrame) : bool :=
  forallb (fun c => bool_decide (c ∈ columns df)) cs.

Definition project (cs : list string) (r : Row) : Row :=
  map (fun c => (c, get c r)) cs.

(** [df['a', 'b', ...]], that is [df.select('a', 'b', ...)]: raises at
    once when a name is not a column of [df]. *)
Definition select (cs : list string) (df : DataFrame) : result DataFrame :=
  if has_columns cs df
  then Ok (mkDF cs (rmap (map (project cs)) (data df)))
  else Err (AnalysisException "cannot resolve column").

(** Keep the first row of each key, in row order.  Spark keeps one row
    per key and does not say which; the first is the choice made here. *)
Fixpoint dedup_by {A K : Type} `{EqDecision K}
    (key : A -> K) (seen : list K) (l : list A) : list A :=
  match l with
  | [] => []
  | x :: l' =>
      if decide (key x ∈ seen) then dedup_by key seen l'
      else x :: dedup_by key (key x :: seen) l'
  end.

Definition key_of (subset : list string) (r : Row) : list value :=
  map (fun c => get c r) subset.

(** [df.dropDuplicates(subset)].  Null keys compare equal to each other. *)
Definition dropDuplicates (subset : list string) (df : DataFrame)
  : result DataFrame :=
  if has_columns subset df
  then Ok (mkDF (columns df) (rmap (dedup_by (key_of subset) []) (data df)))
  else Err (AnalysisException "cannot resolve column").

(** [df.withColumn(c, udf(f)(...))]: the column is added to the schema
    at once; the UDF runs per row when an action runs, and a row on
    which it raises fails that job. *)
Definition withColumn (c : string) (f : Row -> result value) (df : DataFrame)
  : DataFrame :=
  mkDF (if bool_decide (c ∈ columns df) then columns df else columns df ++ [c])
       (rbind (data df)
          (traverse (fun r => rmap (fun v => set_field c v r) (f r)))).

(** The values of column [c], row by row. *)
Definition column (c : string) (rs : list Row) : list value :=
  map (get c) rs.

(** ** Storage, session and the script's monad *)

(** A dataset at rest: JSON input or Parquet output. *)
Record Table : Type := mkTable {
  tcolumns : list string;
  partitioned_by : list string;
  trows : list Row
}.

#[global] Instance Table_eq_dec : EqDecision Table.
Proof. solve_decision. Defined.

(** The world the script runs in: the object store (path to dataset),
    the Spark session's catalog of views and tables (name to DataFrame),
    and the list of paths whose write completed, oldest first. *)
Record World : Type := mkWorld {
  storage : gmap string Table;
  catalog : gmap string DataFrame;
  written : list string
}.

(** A computation changes the world and either returns or raises; the
    changes made before an exception stay. *)
Definition M (A : Type) : Type := World -> World * result A.

Definition ret {A} (a : A) : M A := fun w => (w, Ok a).
Definition raise {A} (e : error) : M A := fun w => (w, Err e).
Definition bind {A B} (m : M A) (k : A -> M B) : M B :=
  fun w => match m w with
           | (w', Ok a) => k a w'
           | (w', Err e) => (w', Err e)
           end.
Definition lift {A} (r : result A) : M A := fun w => (w, r).

Notation "'let*' x ':=' m 'in' k" := (bind m (fun x => k))
  (at level 10, x name, m at level 100, k at level 200).
Notation "m ';;' k" := (bind m (fun _ => k))
  (at level 100, k at level 200, right associativity).

(** [spark.read.json(path)]: the schema is resolved at once, so a
    missing path raises here.  The rows are taken at the read; Spark
    scans the files at each action, which comes to the same here, since
    no stage writes to a path it reads from before its last use of it. *)
Definition read_json (path : string) : M DataFrame :=
  fun w => match storage w !! path with
           | Some t => (w, Ok (mkDF (tcolumns t) (Ok (trows t))))
           | None => (w, Err (AnalysisException "Path does not exist"))
           end.

(** A partitioned Parquet dataset reads back with its partition columns
    last. *)
Definition parquet_columns (t : Table) : list string :=
  filter (fun c => c ∉ partitioned_by t) (tcolumns t) ++ partitioned_by t.

(** [spark.read.parquet(path)]: the schema is resolved at once, so a
    missing path raises here.  The script runs no action on the frame
    it reads this way, and the values Spark gives the partition columns
    are inferred anew from the directory names: the frame is modelled by
    its schema alone. *)
Definition read_parquet (path : string) : M (list string) :=
  fun w => match storage w !! path with
           | Some t => (w, Ok (parquet_columns t))
           | None => (w, Err (AnalysisException "Path does not exist"))
           end.

(** [df.write.mode('overwrite').partitionBy(parts).parquet(path)]: the
    job computes the rows, and the table at [path] is replaced by them.
    When the job fails the write does not complete.  What a failed
    overwrite leaves at [path] depends on the Spark version (the old
    output is deleted before the job runs, or only when it commits); it
    is taken here to be the old output. *)
Definition write_parquet (parts : list string) (path : string) (df : DataFrame)
  : M unit :=
  fun w =>
    if has_columns parts df then
      match data df with
      | Ok rs =>
          (mkWorld (<[path := mkTable (columns df) parts rs]> (storage w))
                   (catalog w) (written w ++ [path]), Ok tt)
      | Err e => (w, Err e)
      end
    else (w, Err (AnalysisException "Partition column not found")).

(** ** The song-catalog stage *)

Definition process_song_data (input_data output_data : string) : M unit :=
  let song_data := input_data +:+ "song_data/*/*/*/*.json" in
  let* df := read_json song_data in
  let* songs_table :=
    lift (select ["song_id"; "title"; "artist_id"; "year"; "duration"] df) in
  let* songs_table := lift (dropDuplicates ["song_id"] songs_table) in
  write_parquet ["year"; "artist_id"] (output_data +:+ "songs_table/") songs_table;;
  let* artists_table :=
    lift (select ["artist_id"; "artist_name"; "artist_location";
                  "artist_latitude"; "artist_longitude"] df) in
  let* artists_table := lift (dropDuplicates ["artist_id"] artists_table) in
  write_parquet [] (output_data +:+ "artists_table/") artists_table.

(** ** IEEE binary64 arithmetic

    Python's [float] and Spark's [double], on the Standard Library's
    executable specification of IEEE 754. *)
Module Float64.
Local Open Scope Z_scope.

Definition prec : Z := 53.
Definition emax : Z := 1024.

(** The double nearest to an integer (ties to even). *)
Definition of_Z (z : Z) : spec_float := binary_normalize prec emax z 0 false.

Definition mul : spec_float -> spec_float -> spec_float := SFmul prec emax.
Definition div : spec_float -> spec_float -> spec_float := SFdiv prec emax.
Definition sub : spec_float -> spec_float -> spec_float := SFsub prec emax.

Definition is_finite (f : spec_float) : bool :=
  match f with
  | S754_zero _ | S754_finite _ _ _ => true
  | S754_infinity _ | S754_nan => false
  end.

(** Round toward zero; [None] on an infinity or a NaN. *)
Definition trunc (f : spec_float) : option Z :=
  match f with
  | S754_zero _ => Some 0
  | S754_finite s m e =>
      Some (cond_Zopp s (if 0 <=? e then Zpos m * 2 ^ e else Zpos m / 2 ^ (- e)))
  | S754_infinity _ | S754_nan => None
  end.

(** Round to the nearest integer, ties to even. *)
Definition round_half_even (f : spec_float) : option Z :=
  match f with
  | S754_zero _ => Some 0
  | S754_finite s m e =>
      if 0 <=? e then Some (cond_Zopp s (Zpos m * 2 ^ e))
      else
        let d := 2 ^ (- e) in
        let q := Zpos m / d in
        let r := Zpos m mod d in
        let q' := match 2 * r ?= d with
                  | Lt => q
                  | Gt => q + 1
                  | Eq => if Z.even q then q else q + 1
                  end in
        Some (cond_Zopp s q')
  | S754_infinity _ | S754_nan => None
  end.

(** The correctly rounded quotient of two integers, [b > 0]: what
    Python's [int / int] returns.  The quotient is taken with 64 extra
    bits and a sticky bit, then rounded once. *)
Definition div_Z (a b : Z) : spec_float :=
  let n := Z.abs a * 2 ^ 64 in
  let q := n / b in
  let sticky := if n mod b =? 0 then 0 else 1 in
  binary_normalize prec emax (Z.sgn a * (2 * q + sticky)) (- 65) false.
End Float64.

(** ** The proleptic Gregorian calendar

    Days are counted from 1970-01-01; both Python's [datetime] and
    Spark's date functions use this calendar. *)
Module Calendar.
Local Open Scope Z_scope.

(** The civil date of a day number. *)
Definition civil_from_days (days : Z) : Z * Z * Z :=
  let z := days + 719468 in
  let era := z / 146097 in
  let doe := z mod 146097 in
  let yoe := (doe - doe / 1460 + doe / 36524 - doe / 146096) / 365 in
  let doy := doe - (365 * yoe + yoe / 4 - yoe / 100) in
  let mp := (5 * doy + 2) / 153 in
  let d := doy - (153 * mp + 2) / 5 + 1 in
  let m := if mp <? 10 then mp + 3 else mp - 9 in
  (if m <=? 2 then yoe + era * 400 + 1 else yoe + era * 400, m, d).

(** The day number of a civil date. *)
Definition days_from_civil (y m d : Z) : Z :=
  let y' := if m <=? 2 then y - 1 else y in
  let era := y' / 400 in
  let yoe := y' mod 400 in
  let doy := (153 * (if m <=? 2 then m + 9 else m - 3) + 2) / 5 + d - 1 in
  let doe := yoe * 365 + yoe / 4 - yoe / 100 + doy in
  era * 146097 + doe - 719468.

Definition is_leap (y : Z) : bool :=
  (y mod 4 =? 0) && (negb (y mod 100 =? 0) || (y mod 400 =? 0)).

Definition days_in_month (y m : Z) : Z :=
  if m =? 2 then (if is_leap y then 29 else 28)
  else if (m =? 4) || (m =? 6) || (m =? 9) || (m =? 11) then 30
  else 31.

Definition valid_date (y m d : Z) : bool :=
  (1 <=? y) && (y <=? 9999) && (1 <=? m) && (m <=? 12)
  && (1 <=? d) && (d <=? days_in_month y m).

Definition valid_time (hh mm ss us : Z) : bool :=
  (0 <=? hh) && (hh <=? 23) && (0 <=? mm) && (mm <=? 59)
  && (0 <=? ss) && (ss <=? 59) && (0 <=? us) && (us <=? 999999).

(** Monday is 0. *)
Definition weekday (days : Z) : Z := (days + 3) mod 7.

(** Number of ISO weeks of a year: 53 when the year starts on a
    Thursday, or on a Wednesday and is a leap year. *)
Definition iso_weeks_in_year (y : Z) : Z :=
  let jan1 := weekday (days_from_civil y 1 1) in
  if (jan1 =? 3) || ((jan1 =? 2) && is_leap y) then 53 else 52.

(** The ISO 8601 week number of a day. *)
Definition iso_week (days : Z) : Z :=
  let '(y, _, _) := civil_from_days days in
  let doy := days - days_from_civil y 1 1 + 1 in
  let w := (doy - (weekday days + 1) + 10) / 7 in
  if w <? 1 then iso_weeks_in_year (y - 1)
  else if iso_weeks_in_year y <? w then 1
  else w.
End Calendar.

(** A time zone, as far as the script depends on it: the offset from UTC
    in force at an instant, and the instant a local wall-clock time
    denotes (both in seconds).  [resolves] says that a wall-clock time
    that some instant shows is resolved to an instant showing it; a
    wall-clock time skipped by a clock change is shown by no instant and
    is left unconstrained. *)
Record TimeZone : Type := mkZone {
  utc_offset : Z -> Z;
  to_instant : Z -> Z;
  resolves : forall t : Z,
    (to_instant (t + utc_offset t)
     + utc_offset (to_instant (t + utc_offset t)) = t + utc_offset t)%Z
}.

Definition fixed_zone (offset : Z) : TimeZone.
Proof.
  refine (mkZone (fun _ => offset) (fun l => (l - offset)%Z) _).
  intros t. lia.
Defined.

Definition UTC : TimeZone := fixed_zone 0.

(** ** The Python side: [int], [str], [datetime] *)
Module Py.
Local Open Scope Z_scope.

Definition digit_char (d : Z) : ascii := ascii_of_nat (48 + Z.to_nat d).

Definition digit_val (c : ascii) : option Z :=
  let n := Z.of_nat (nat_of_ascii c) in
  if (48 <=? n) && (n <=? 57) then Some (n - 48) else None.

(** The [k] low decimal digits of [n], most significant first. *)
Fixpoint fixed (k : nat) (n : Z) : string :=
  match k with
  | O => EmptyString
  | S k' => String (digit_char ((n / 10 ^ Z.of_nat k') mod 10)) (fixed k' n)
  end.

(** [str(z)] for an [int]. *)
Definition str_int (z : Z) : string := pretty z.

(** ["%0kd" % n] for [0 <= n]. *)
Definition zero_padded (k : nat) (n : Z) : string :=
  if n <? 10 ^ Z.of_nat k then fixed k n else str_int n.

Definition is_space (c : ascii) : bool :=
  let n := nat_of_ascii c in
  (n =? 32)%nat || ((9 <=? n)%nat && (n <=? 13)%nat).

Fixpoint lstrip (s : string) : string :=
  match s with
  | String c s' => if is_space c then lstrip s' else s
  | EmptyString => EmptyString
  end.

Definition strip (s : string) : string :=
  String.rev (lstrip (String.rev (lstrip s))).

(** Decimal digits, single underscores allowed between digits. *)
Fixpoint int_digits (s : string) (acc : Z) (after_digit : bool) : option Z :=
  match s with
  | EmptyString => if after_digit then Some acc else None
  | String c s' =>
      match digit_val c with
      | Some d => int_digits s' (acc * 10 + d) true
      | None =>
          if Ascii.eqb c "_" && after_digit then int_digits s' acc false
          else None
      end
  end.

Definition int_of_string (s : string) : option Z :=
  match strip s with
  | String "-" s' => Z.opp <$> int_digits s' 0 false
  | String "+" s' => int_digits s' 0 false
  | s' => int_digits s' 0 false
  end.

(** [int(x)] on what a Spark column hands to a Python UDF: an [int]
    for an integral column, a [float] for a double, a [str] for a
    string, [None] for null, a [datetime] for a timestamp.  Strings
    are byte strings here: digits outside ASCII are not recognised. *)
Definition int (x : value) : result Z :=
  match x with
  | VInt z => Ok z
  | VDouble f =>
      match Float64.trunc f with
      | Some z => Ok z
      | None => Err (PythonException "cannot convert float to integer")
      end
  | VStr s =>
      match int_of_string s with
      | Some z => Ok z
      | None => Err (PythonException "ValueError: invalid literal for int()")
      end
  | VNull => Err (PythonException "TypeError: int() argument is NoneType")
  | VTimestamp _ => Err (PythonException "TypeError: int() argument is datetime")
  end.

(** A naive [datetime.datetime]. *)
Record datetime : Type := mkDatetime {
  year : Z; month : Z; day : Z;
  hour : Z; minute : Z; second : Z; microsecond : Z
}.

(** The range checks of the [datetime] constructor. *)
Definition valid (dt : datetime) : bool :=
  Calendar.valid_date (year dt) (month dt) (day dt)
  && Calendar.valid_time (hour dt) (minute dt) (second dt) (microsecond dt).

(** The year [localtime] shows at an instant. *)
Definition local_year (tz : TimeZone) (secs : Z) : Z :=
  let '(y, _, _) := Calendar.civil_from_days ((secs + utc_offset tz secs) / 86400) in y.

(** [datetime.fromtimestamp(t)] for a float [t], in the local zone
    [tz]: the fraction is rounded to microseconds, ties to even; the
    whole seconds go through [localtime]; the constructor checks the
    fields.  CPython also looks at the local time one day earlier (to
    tell whether the wall-clock time is repeated) and raises when that
    one is out of range. *)
Definition fromtimestamp (tz : TimeZone) (t : spec_float) : result datetime :=
  match Float64.trunc t with
  | None => Err (PythonException "cannot convert float to timestamp")
  | Some intpart =>
      let frac := Float64.sub t (Float64.of_Z intpart) in
      match Float64.round_half_even (Float64.mul frac (Float64.of_Z 1000000)) with
      | None => Err (PythonException "cannot convert float to timestamp")
      | Some us0 =>
          let '(secs, us) :=
            if 1000000 <=? us0 then (intpart + 1, us0 - 1000000)
            else if us0 <? 0 then (intpart - 1, us0 + 1000000)
            else (intpart, us0) in
          let l := secs + utc_offset tz secs in
          let '(y, m, d) := Calendar.civil_from_days (l / 86400) in
          let sod := l mod 86400 in
          let dt := mkDatetime y m d (sod / 3600) (sod mod 3600 / 60)
                               (sod mod 60) us in
          let probe := local_year tz (secs - 86400) in
          if valid dt && (1 <=? probe) && (probe <=? 9999) then Ok dt
          else Err (PythonException "ValueError: year is out of range")
      end
  end.

(** [str(dt)], that is [dt.isoformat(sep=' ')]. *)
Definition str_datetime (dt : datetime) : string :=
  zero_padded 4 (year dt) +:+ "-" +:+ zero_padded 2 (month dt) +:+ "-"
  +:+ zero_padded 2 (day dt) +:+ " "
  +:+ zero_padded 2 (hour dt) +:+ ":" +:+ zero_padded 2 (minute dt) +:+ ":"
  +:+ zero_padded 2 (second dt)
  +:+ (if microsecond dt =? 0 then "" else "." +:+ zero_padded 6 (microsecond dt)).

(** [int(x) / 1000]: true division of two [int]s. *)
Definition truediv_1000 (z : Z) : result spec_float :=
  let f := Float64.div_Z z 1000 in
  if Float64.is_finite f then Ok f
  else Err (PythonException "OverflowError: integer division result too large for a float").

(** [int(x) / 1000.0]: the [int] is converted to a [float] first. *)
Definition truediv_1000_0 (z : Z) : result spec_float :=
  let f := Float64.of_Z z in
  if Float64.is_finite f then Ok (Float64.div f (Float64.of_Z 1000))
  else Err (PythonException "OverflowError: int too large to convert to float").
End Py.

(** ** The Spark side: casts and date functions *)
Module Spark.
Local Open Scope Z_scope.

(** Leading and trailing blanks (code points up to 32) are dropped
    before a string is parsed as a date or a timestamp. *)
Definition is_blank (c : ascii) : bool := (nat_of_ascii c <=? 32)%nat.

Fixpoint drop_blanks (l : list ascii) : list ascii :=
  match l with
  | c :: l' => if is_blank c then drop_blanks l' else l
  | [] => []
  end.

Definition trim (l : list ascii) : list ascii :=
  rev (drop_blanks (rev (drop_blanks l))).

Definition valid_date (y m d : Z) : bool :=
  (1 <=? m) && (m <=? 12) && (1 <=? d) && (d <=? Calendar.days_in_month y m).

(** The scanner shared by the two casts: [seg] is the segment being
    read, [cur] its value so far, [pos] the index of the next byte,
    [segs] the segments closed so far (year, month, day, hour, minute,
    second, fraction), [frac_digits] the number of fraction digits. *)
Record scan : Type := mkScan {
  seg : nat; cur : Z; pos : nat; frac_digits : nat; segs : list Z
}.

Definition scan0 : scan := mkScan 0 0 0 0 [1; 1; 1; 0; 0; 0; 0].

Definition close_segment (st : scan) : scan :=
  mkScan (S (seg st)) 0 (S (pos st)) (frac_digits st)
         (<[seg st := cur st]> (segs st)).

Definition push_digit (d : Z) (st : scan) : scan :=
  mkScan (seg st) (cur st * 10 + d) (S (pos st))
         (if (seg st =? 6)%nat then S (frac_digits st) else frac_digits st)
         (segs st).

(** One byte of a timestamp string.  Of the forms Spark accepts, the
    ones with a zone suffix and the time-only ones are left out: here
    they are rejected. *)
Definition timestamp_step (st : scan) (b : ascii) : option scan :=
  match Py.digit_val b with
  | Some d => Some (push_digit d st)
  | None =>
      if (seg st <? 2)%nat then
        if Ascii.eqb b "-" then
          if (seg st =? 0)%nat && negb (pos st =? 4)%nat then None
          else Some (close_segment st)
        else None
      else if (seg st =? 2)%nat then
        if Ascii.eqb b " " || Ascii.eqb b "T" then Some (close_segment st) else None
      else if (seg st <? 5)%nat then
        if Ascii.eqb b ":" then Some (close_segment st) else None
      else if (seg st =? 5)%nat then
        if Ascii.eqb b "." then Some (close_segment st) else None
      else None
  end.

Fixpoint run_scan (step : scan -> ascii -> option scan)
    (st : scan) (l : list ascii) : option scan :=
  match l with
  | [] => Some st
  | b :: l' => match step st b with
               | Some st' => run_scan step st' l'
               | None => None
               end
  end.

(** Bring the fraction to microseconds: pad with zeros, or drop the
    digits past the sixth. *)
Definition scale_fraction (digits : nat) (v : Z) : Z :=
  if (digits <=? 6)%nat then v * 10 ^ Z.of_nat (6 - digits)
  else v / 10 ^ Z.of_nat (digits - 6).

(** [CAST(s AS TIMESTAMP)] in the session zone [tz]: microseconds
    since the epoch, or [None] (SQL null) when [s] is not a timestamp. *)
Definition string_to_timestamp (tz : TimeZone) (s : string) : option Z :=
  match run_scan timestamp_step scan0 (trim (list_ascii_of_string s)) with
  | None => None
  | Some st =>
      if (seg st =? 0)%nat && negb (pos st =? 4)%nat then None
      else
        match <[seg st := cur st]> (segs st) with
        | [y; m; d; hh; mm; ss; fr] =>
            let us := scale_fraction (frac_digits st) fr in
            if valid_date y m d && Calendar.valid_time hh mm ss us then
              let l := Calendar.days_from_civil y m d * 86400
                       + hh * 3600 + mm * 60 + ss in
              Some (to_instant tz l * 1000000 + us)
            else None
        | _ => None
        end
  end.

(** One byte of a date string; the scan stops at the first blank or
    ['T'] after the day, and what follows is ignored. *)
Fixpoint scan_date (st : scan) (l : list ascii) : option (scan * list ascii) :=
  match l with
  | [] => Some (st, [])
  | b :: l' =>
      if Ascii.eqb b " " || Ascii.eqb b "T" then Some (st, l)
      else if (seg st <? 2)%nat && Ascii.eqb b "-" then
        if (seg st =? 0)%nat && negb (pos st =? 4)%nat then None
        else scan_date (close_segment st) l'
      else match Py.digit_val b with
           | Some d => scan_date (push_digit d st) l'
           | None => None
           end
  end.

(** [CAST(s AS DATE)]: the day number, or [None] (SQL null). *)
Definition string_to_date (s : string) : option Z :=
  match scan_date (mkScan 0 0 0 0 [1; 1; 1]) (trim (list_ascii_of_string s)) with
  | None => None
  | Some (st, rest) =>
      if (seg st =? 0)%nat && negb (pos st =? 4)%nat then None
      else if (seg st <? 2)%nat && negb (bool_decide (rest = [])) then None
      else
        match <[seg st := cur st]> (segs st) with
        | [y; m; d] =>
            if valid_date y m d then Some (Calendar.days_from_civil y m d)
            else None
        | _ => None
        end
  end.

(** The wall-clock second count a timestamp shows in zone [tz], and
    the day it falls on. *)
Definition local_seconds (tz : TimeZone) (us : Z) : Z :=
  let secs := us / 1000000 in secs + utc_offset tz secs.

Definition timestamp_to_days (tz : TimeZone) (us : Z) : Z :=
  local_seconds tz us / 86400.

(** The implicit casts of the date functions.  These are applied to
    string and timestamp columns only; on any other value the model
    answers null. *)
Definition as_timestamp (tz : TimeZone) (v : value) : option Z :=
  match v with
  | VTimestamp us => Some us
  | VStr s => string_to_timestamp tz s
  | _ => None
  end.

Definition as_date (tz : TimeZone) (v : value) : option Z :=
  match v with
  | VTimestamp us => Some (timestamp_to_days tz us)
  | VStr s => string_to_date s
  | _ => None
  end.

Definition int_or_null (o : option Z) : value :=
  match o with Some z => VInt z | None => VNull end.

Definition hour (tz : TimeZone) (v : value) : value :=
  int_or_null ((fun us => local_seconds tz us mod 86400 / 3600) <$> as_timestamp tz v).

Definition dayofmonth (tz : TimeZone) (v : value) : value :=
  int_or_null ((fun n => let '(_, _, d) := Calendar.civil_from_days n in d) <$> as_date tz v).

Definition weekofyear (tz : TimeZone) (v : value) : value :=
  int_or_null (Calendar.iso_week <$> as_date tz v).

Definition month (tz : TimeZone) (v : value) : value :=
  int_or_null ((fun n => let '(_, m, _) := Calendar.civil_from_days n in m) <$> as_date tz v).

Definition year (tz : TimeZone) (v : value) : value :=
  int_or_null ((fun n => let '(y, _, _) := Calendar.civil_from_days n in y) <$> as_date tz v).

End Spark.

(** ** The activity-log stage *)

(** [get_timestamp = udf(lambda x: str(int(int(x) / 1000)))], with
    Python 3's true division. *)
Definition get_timestamp (x : value) : result value :=
  rbind (Py.int x) (fun z =>
  rbind (Py.truediv_1000 z) (fun f =>
  match Float64.trunc f with
  | Some secs => Ok (VStr (Py.str_int secs))
  | None => Err (PythonException "cannot convert float to integer")
  end)).

(** [get_datetime = udf(lambda x: str(datetime.fromtimestamp(int(x) / 1000.0)))] *)
Definition get_datetime (tz : TimeZone) (x : value) : result value :=
  rbind (Py.int x) (fun z =>
  rbind (Py.truediv_1000_0 z) (fun f =>
  rbind (Py.fromtimestamp tz f) (fun dt =>
  Ok (VStr (Py.str_datetime dt))))).

(** [df.name]: the column, or [AttributeError]. *)
Definition attr (c : string) (df : DataFrame) : result unit :=
  if bool_decide (c ∈ columns df) then Ok tt
  else Err (AttributeError "'DataFrame' object has no attribute").

(** [df.select(e1.alias(n1), ...)] for expressions over the columns
    [uses]. *)
Definition select_exprs (uses : list string)
    (exprs : list (string * (Row -> value))) (df : DataFrame) : result DataFrame :=
  if has_columns uses df
  then Ok (mkDF (map fst exprs)
                (rmap (map (fun r => map (fun e => (fst e, snd e r)) exprs)) (data df)))
  else Err (AnalysisException "cannot resolve column").

Definition time_exprs (tz : TimeZone) : list (string * (Row -> value)) :=
  [ ("start_time", get "datetime");
    ("hour", fun r => Spark.hour tz (get "datetime" r));
    ("day", fun r => Spark.dayofmonth tz (get "datetime" r));
    ("week", fun r => Spark.weekofyear tz (get "datetime" r));
    ("month", fun r => Spark.month tz (get "datetime" r));
    ("year", fun r => Spark.year tz (get "datetime" r)) ].

(** [spark.sql] on the text of lines 111 to 125:
    [SELECT to_timestamp(l.ts/1000) 'start_time', ..., l.userAgent 'user_agent'
     FROM log_table_view l JOIN song_table_view s
     ON l.artist = s.artist_name AND l.song = s.title].
    The text gives its column aliases as single-quoted strings, where
    Spark's grammar takes an identifier: the parser rejects the text
    before any name in it is looked up, whatever the session holds. *)
Definition spark_sql_songplays : M DataFrame :=
  fun w => (w, Err (ParseException "mismatched input 'start_time'")).

(** [tz] is the time zone of the machine the job runs on: the script
    sets none, so Python's [localtime] and the Spark session both take
    it from there. *)
Definition process_log_data (tz : TimeZone) (input_data output_data : string)
  : M unit :=
  let log_data := input_data +:+ "log_data/*/*/*.json" in
  let* df := read_json log_data in
  let* songplays_table :=
    lift (select ["ts"; "userId"; "level"; "sessionId"; "location"; "userAgent"] df) in
  let* users_table :=
    lift (select ["userId"; "firstName"; "lastName"; "gender"; "level"] df) in
  let* users_table := lift (dropDuplicates ["userId"] users_table) in
  write_parquet [] (output_data +:+ "users_table/") users_table;;
  lift (attr "ts" df);;
  let df := withColumn "timestamp" (fun r => get_timestamp (get "ts" r)) df in
  lift (attr "ts" df);;
  let df := withColumn "datetime" (fun r => get_datetime tz (get "ts" r)) df in
  let* time_table := lift (select_exprs ["datetime"] (time_exprs tz) df) in
  let* time_table := lift (dropDuplicates ["start_time"] time_table) in
  write_parquet ["year"; "month"] (output_data +:+ "time_table") time_table;;
  let* song_df := read_parquet (output_data +:+ "songs_table/") in
  let* songplays_table := spark_sql_songplays in
  write_parquet ["year"; "month"] (output_data +:+ "songplays_table/") songplays_table.

(** ** Entry point *)

(** [SparkSession.builder...getOrCreate()]: the session is the world's
    [catalog]; creating it registers nothing. *)
Definition create_spark_session : M unit := ret tt.

Definition input_data : string := "s3a://udacity-dend/".
Definition output_data : string := "s3a://udacity-dend/dloutput/".

Definition main (tz : TimeZone) : M unit :=
  create_spark_session;;
  process_song_data input_data output_data;;
  process_log_data tz input_data output_data.

(** ** Module-level code: configuration and credentials *)
Module Config.

(** What a parser holds: the options of each section, and those of the
    [DEFAULT] section. *)
Record ConfigParser : Type := mkConfig {
  defaults : gmap string string;
  sections : gmap string (gmap string string)
}.

Definition empty : ConfigParser := mkConfig ∅ ∅.

(** What [dl.cfg] is to the parser: missing, rejected (an option before
    any section header, a section or an option given twice, a line that
    is no option), or accepted with its sections. *)
Inductive File : Type :=
| Missing
| Rejected (what : string)
| Accepted (config : ConfigParser).

(** [config.read('dl.cfg')]: a missing file is passed over in silence
    and leaves the parser empty; a rejected one raises. *)
Definition read (file : File) : result ConfigParser :=
  match file with
  | Missing => Ok empty
  | Rejected what => Err (ConfigParserError what)
  | Accepted config => Ok config
  end.

(** The Python objects the first four statements handle. *)
Inductive pyobj : Type :=
| PyStr (s : string)
| SectionProxy (name : string).

(** [config[key]]: the section of that name. *)
Definition getitem (config : ConfigParser) (key : string) : result pyobj :=
  if bool_decide (key = "DEFAULT") || bool_decide (is_Some (sections config !! key))
  then Ok (SectionProxy key)
  else Err (KeyError key).

(** [os.environ[k] = v]: only a [str] can be stored. *)
Definition environ_setitem (environ : gmap string string) (k : string) (v : pyobj)
  : result (gmap string string) :=
  match v with
  | PyStr s => Ok (<[k := s]> environ)
  | SectionProxy _ => Err (TypeError "str expected, not SectionProxy")
  end.

(** Lines 9 to 13 of the script. *)
Definition startup (file : File) (environ : gmap string string)
  : result (gmap string string) :=
  rbind (read file) (fun config =>
  rbind (getitem config "AWS_ACCESS_KEY_ID") (fun v =>
  rbind (environ_setitem environ "AWS_ACCESS_KEY_ID" v) (fun environ =>
  rbind (getitem config "AWS_SECRET_ACCESS_KEY") (fun v =>
  environ_setitem environ "AWS_SECRET_ACCESS_KEY" v)))).
End Config.

(** The script run as a program: the module-level code, then [main()]. *)
Definition etl (tz : TimeZone) (file : Config.File)
    (environ : gmap string string) (w : World)
  : gmap string string * World * result unit :=
  match Config.startup file environ with
  | Ok environ' => let '(w', r) := main tz w in (environ', w', r)
  | Err e => (environ, w, Err e)
  end.

(** ** Example data *)

(** The log event and the song of the specification's scenario, and the
    same two records completed with the remaining fields of the data
    model. *)
Definition scenario_log : Row :=
  [ ("ts", VInt 1542242481796); ("artist", VStr "Des'ree");
    ("song", VStr "You Gotta Be"); ("userId", VStr "26");
    ("level", VStr "free"); ("sessionId", VInt 583);
    ("location", VStr "Houston"); ("userAgent", VStr "Mozilla") ].

Definition scenario_song : Row :=
  [ ("title", VStr "You Gotta Be"); ("artist_name", VStr "Des'ree");
    ("song_id", VStr "SOxxx"); ("artist_id", VStr "ARxxx");
    ("year", VInt 1998);
    ("duration", VDouble (S754_finite false 8444249301319680 (-45))) ].

Definition full_log : Row :=
  scenario_log ++ [ ("firstName", VStr "Ryan"); ("lastName", VStr "Smith");
                    ("gender", VStr "M") ].

Definition full_song : Row :=
  scenario_song ++ [ ("artist_location", VStr "London"); ("artist_latitude", VNull);
                     ("artist_longitude", VNull) ].

Definition song_path : string := input_data +:+ "song_data/*/*/*/*.json".
Definition log_path : string := input_data +:+ "log_data/*/*/*.json".

Definition json_table (rs : list Row) : Table :=
  mkTable (match rs with r :: _ => map fst r | [] => [] end) [] rs.

(** A store holding the two input datasets, and a fresh session. *)
Definition world_of (songs logs : list Row) : World :=
  mkWorld (<[song_path := json_table songs]> (<[log_path := json_table logs]> ∅)) ∅ [].

Definition scenario_world : World := world_of [scenario_song] [scenario_log].
Definition full_world : World := world_of [full_song] [full_log].

(** ** Notions used in the statements *)

(** The output tables of the two stages, in the order they are written. *)
Definition song_outputs (output_data : string) : list string :=
  [output_data +:+ "songs_table/"; output_data +:+ "artists_table/"].

Definition log_outputs (output_data : string) : list string :=
  [output_data +:+ "users_table/"; output_data +:+ "time_table";
   output_data +:+ "songplays_table/"].


(** What the stages do instead: the writes that completed are the first
    [k] outputs; the stage returns exactly when all of them completed;
    the tables written are there; those after the step that failed, and
    every other path, are as they were. *)
Definition writes_in_order (stage : M unit) (outputs : list string) (w : World) : Prop :=
  let '(w', r) := stage w in
  exists k : nat,
    written w' = written w ++ take k outputs
    /\ (is_ok r = true <-> k = length outputs)
    /\ (forall p, p ∈ take k outputs -> is_Some (storage w' !! p))
    /\ (forall p, p ∈ drop (S k) outputs -> storage w' !! p = storage w !! p)
    /\ (forall p, p ∉ outputs -> storage w' !! p = storage w !! p).

(** The table a stage left at [path], when its write there completed. *)
Definition written_table (w' : World) (path : string) : option Table :=
  if bool_decide (path ∈ written w') then storage w' !! path else None.

(** [process_log_data] with the statement of lines 74-75, the first
    [songplays_table] projection, removed; everything else as in the
    script. *)
Definition process_log_data_without_projection
    (tz : TimeZone) (input_data output_data : string) : M unit :=
  let log_data := input_data +:+ "log_data/*/*/*.json" in
  let* df := read_json log_data in
  let* users_table :=
    lift (select ["userId"; "firstName"; "lastName"; "gender"; "level"] df) in
  let* users_table := lift (dropDuplicates ["userId"] users_table) in
  write_parquet [] (output_data +:+ "users_table/") users_table;;
  lift (attr "ts" df);;
  let df := withColumn "timestamp" (fun r => get_timestamp (get "ts" r)) df in
  lift (attr "ts" df);;
  let df := withColumn "datetime" (fun r => get_datetime tz (get "ts" r)) df in
  let* time_table := lift (select_exprs ["datetime"] (time_exprs tz) df) in
  let* time_table := lift (dropDuplicates ["start_time"] time_table) in
  write_parquet ["year"; "month"] (output_data +:+ "time_table") time_table;;
  let* song_df := read_parquet (output_data +:+ "songs_table/") in
  let* songplays_table := spark_sql_songplays in
  write_parquet ["year"; "month"] (output_data +:+ "songplays_table/") songplays_table.

(** A log dataset whose records carry no [userAgent]. *)
Definition log_without_agent : Row :=
  [ ("ts", VInt 1542242481796); ("artist", VStr "Des'ree");
    ("song", VStr "You Gotta Be"); ("userId", VStr "26");
    ("level", VStr "free"); ("sessionId", VInt 583);
    ("location", VStr "Houston"); ("firstName", VStr "Ryan");
    ("lastName", VStr "Smith"); ("gender", VStr "M") ].

(** A session in which the two views the query names exist, holding the
    given log and song records.  Nothing in the script builds it. *)
Definition with_views (logs songs : list Row) (w : World) : World :=
  mkWorld (storage w)
          (<["log_table_view" := mkDF (tcolumns (json_table logs)) (Ok logs)]>
           (<["song_table_view" := mkDF (tcolumns (json_table songs)) (Ok songs)]>
            (catalog w)))
          (written w).

(** A configuration file with the credentials in an [AWS] section, the
    customary layout. *)
Definition aws_config : Config.ConfigParser :=
  Config.mkConfig ∅
    {[ "AWS" := {[ "AWS_ACCESS_KEY_ID" := "AKIAEXAMPLE";
                   "AWS_SECRET_ACCESS_KEY" := "secret" ]} ]}.

(** The columns the first [songplays_table] projection selects. *)
Definition projected_columns : list string :=
  ["ts"; "userId"; "level"; "sessionId"; "location"; "userAgent"].

Definition world_without_agent : World := world_of [full_song] [log_without_agent].

(** ** Notions about dates and their text *)

Section DatetimeNotions.
Local Open Scope Z_scope.

(** The decimal digits of [fixed]. *)
Definition digits (k : nat) (n : Z) : list ascii := list_ascii_of_string (Py.fixed k n).

(** Scanning [k] digits. *)
Definition pushed (k : nat) (v : Z) (st : Spark.scan) : Spark.scan :=
  Spark.mkScan (Spark.seg st) (Spark.cur st * 10 ^ Z.of_nat k + v)
    (Spark.pos st + k)
    (if (Spark.seg st =? 6)%nat then (Spark.frac_digits st + k)%nat
     else Spark.frac_digits st)
    (Spark.segs st).

(** The characters of [str(dt)]. *)
Definition fraction_chars (us : Z) : list ascii :=
  if us =? 0 then [] else "."%char :: digits 6 us.

Definition datetime_chars (dt : Py.datetime) : list ascii :=
  digits 4 (Py.year dt) ++ "-"%char :: digits 2 (Py.month dt)
  ++ "-"%char :: digits 2 (Py.day dt)
  ++ " "%char :: digits 2 (Py.hour dt)
  ++ ":"%char :: digits 2 (Py.minute dt)
  ++ ":"%char :: digits 2 (Py.second dt) ++ fraction_chars (Py.microsecond dt).

(** The scanner state at the end of [str(dt)]. *)
Definition scanned (dt : Py.datetime) : Spark.scan :=
  if Py.microsecond dt =? 0
  then Spark.mkScan 5 (Py.second dt) 19 0
         [Py.year dt; Py.month dt; Py.day dt; Py.hour dt; Py.minute dt; 0; 0]
  else Spark.mkScan 6 (Py.microsecond dt) 26 6
         [Py.year dt; Py.month dt; Py.day dt; Py.hour dt; Py.minute dt;
          Py.second dt; 0].

(** The wall-clock second count of a datetime's fields. *)
Definition field_seconds (dt : Py.datetime) : Z :=
  Calendar.days_from_civil (Py.year dt) (Py.month dt) (Py.day dt) * 86400
  + Py.hour dt * 3600 + Py.minute dt * 60 + Py.second dt.

(** [dt] is what a clock in zone [tz] shows at some instant. *)
Definition shown_in (tz : TimeZone) (dt : Py.datetime) : Prop :=
  exists secs : Z,
    let l := secs + utc_offset tz secs in
    Calendar.civil_from_days (l / 86400) = (Py.year dt, Py.month dt, Py.day dt)
    /\ Py.hour dt = l mod 86400 / 3600
    /\ Py.minute dt = l mod 86400 mod 3600 / 60
    /\ Py.second dt = l mod 86400 mod 60.

End DatetimeNotions.

(** The row of the time table for a value [v] of the [datetime] column. *)
Definition time_row (tz : TimeZone) (v : value) : Row :=
  [ ("start_time", v); ("hour", Spark.hour tz v); ("day", Spark.dayofmonth tz v);
    ("week", Spark.weekofyear tz v); ("month", Spark.month tz v);
    ("year", Spark.year tz v) ].

(** The time table of the scenario, in UTC. *)
Definition scenario_time_table : Table :=
  mkTable ["start_time"; "hour"; "day"; "week"; "month"; "year"] ["year"; "month"]
    [ [ ("start_time", VStr "2018-11-15 00:41:21.796000"); ("hour", VInt 0);
        ("day", VInt 15); ("week", VInt 46); ("month", VInt 11);
        ("year", VInt 2018) ] ].

(** ** Notions about the stages' inputs and outputs *)



(** [t] is the dimension table of [input] on [key]: it has the columns
    [cols] and the partition columns [parts]; each of its rows is an
    input row cut down to [cols]; every key of the input is in it. *)
Definition dimension_of (key : string) (cols parts : list string)
    (input : list Row) (t : Table) : Prop :=
  tcolumns t = cols
  /\ partitioned_by t = parts
  /\ (forall row, row ∈ trows t -> exists r, r ∈ input /\ row = project cols r)
  /\ (forall r, r ∈ input -> get key r ∈ column key (trows t)).


(** The log data with its [timestamp] and [datetime] columns (lines 85
    to 90), and what the job writing the time table computes from it
    (lines 93 to 105). *)
Definition datetime_frame (tz : TimeZone) (tin : Table) : DataFrame :=
  withColumn "datetime" (fun r => get_datetime tz (get "ts" r))
    (withColumn "timestamp" (fun r => get_timestamp (get "ts" r))
       (mkDF (tcolumns tin) (Ok (trows tin)))).

Definition time_rows (tz : TimeZone) (tin : Table) : result (list Row) :=
  rmap (dedup_by (key_of ["start_time"]) [])
    (rmap (map (fun r => map (fun e => (fst e, snd e r)) (time_exprs tz)))
       (data (datetime_frame tz tin))).











(** The users table of the scenario. *)
Definition scenario_users_table : Table :=
  mkTable ["userId"; "firstName"; "lastName"; "gender"; "level"] []
    [ [ ("userId", VStr "26"); ("firstName", VStr "Ryan"); ("lastName", VStr "Smith");
        ("gender", VStr "M"); ("level", VStr "free") ] ].


(** * Properties *)

(** ** Paths and symbolic execution *)

Lemma append_inj_l (s a b : string) : s +:+ a = s +:+ b -> a = b.
Proof. induction s; simpl; intros H; [done|]. injection H. auto. Qed.

Lemma append_ne (s a b : string) : a <> b -> s +:+ a <> s +:+ b.
Proof. intros H E. apply H. eapply append_inj_l, E. Qed.

(** Follow a computation of [M] through every outcome of its steps. *)
Ltac run :=
  repeat (cbn [fst snd storage catalog written is_ok] in *;
          match goal with
          | H : (_, _) = (_, _) |- _ => inversion H; subst; clear H
          | H : Ok _ = Ok _ |- _ => inversion H; subst; clear H
          | H : Ok _ = Err _ |- _ => discriminate H
          | H : Err _ = Ok _ |- _ => discriminate H
          | H : context [match ?x with _ => _ end] |- _ => destruct x eqn:?
          | |- context [match ?x with _ => _ end] => destruct x eqn:?
          end).

Ltac path_ne :=
  first [ apply append_ne; discriminate
        | congruence
        | intros ->; contradiction ].

Ltac map_lookup :=
  repeat first [ rewrite lookup_insert_eq
               | rewrite lookup_insert_ne by path_ne ].

Ltac elems :=
  repeat match goal with
         | H : _ ∈ [] |- _ => apply elem_of_nil in H; contradiction
         | H : _ ∈ _ :: _ |- _ => apply elem_of_cons in H; destruct H as [-> | H]
         | H : _ ∉ _ :: _ |- _ => apply not_elem_of_cons in H; destruct H as [? H]
         end.

Ltac in_order k :=
  exists k; cbn [take drop length firstn skipn];
  split; [ rewrite <- ?app_assoc, ?app_nil_r; reflexivity | ];
  split; [ split; [ intros; first [ discriminate | reflexivity ]
                  | intros; first [ discriminate | reflexivity ] ] | ];
  split; [ intros p Hp; elems; cbn; map_lookup; eauto | ];
  split; [ intros p Hp; elems; cbn; map_lookup; reflexivity
         | intros p Hp; elems; cbn; map_lookup; reflexivity ].

Lemma song_stage_in_order i o w :
  writes_in_order (process_song_data i o) (song_outputs o) w.
Proof.
  unfold writes_in_order, song_outputs, process_song_data, bind, lift,
    read_json, write_parquet.
  run; first [ in_order 0%nat | in_order 1%nat | in_order 2%nat ].
Qed.

Lemma log_stage_in_order tz i o w :
  writes_in_order (process_log_data tz i o) (log_outputs o) w.
Proof.
  unfold writes_in_order, log_outputs, process_log_data, bind, lift,
    read_json, read_parquet, write_parquet, spark_sql_songplays.
  run; first [ in_order 0%nat | in_order 1%nat | in_order 2%nat | in_order 3%nat ].
Qed.

(** Neither stage registers a view: the catalog stays as it was. *)
Lemma song_stage_catalog i o w :
  catalog (fst (process_song_data i o w)) = catalog w.
Proof.
  unfold process_song_data, bind, lift, read_json, write_parquet.
  run; reflexivity.
Qed.

Lemma log_stage_catalog tz i o w :
  catalog (fst (process_log_data tz i o w)) = catalog w.
Proof.
  unfold process_log_data, bind, lift, read_json, read_parquet, write_parquet,
    spark_sql_songplays.
  run; reflexivity.
Qed.

(** The log stage raises no later than the join query: its write of the
    fact table is never reached, and the table is left alone. *)
Lemma log_stage_stops_at_query tz i o w :
  let '(w', r) := process_log_data tz i o w in
  is_ok r = false
  /\ storage w' !! (o +:+ "songplays_table/") = storage w !! (o +:+ "songplays_table/")
  /\ exists k : nat, (k <= 2)%nat /\ written w' = written w ++ take k (log_outputs o).
Proof.
  unfold log_outputs, process_log_data, bind, lift, read_json, read_parquet,
    write_parquet, spark_sql_songplays.
  run; try congruence.
  all: split; [reflexivity|]; split; [cbn; map_lookup; reflexivity|].
  all: first [ exists 0%nat; split; [lia|]; cbn; rewrite <- ?app_assoc, ?app_nil_r; reflexivity
             | exists 1%nat; split; [lia|]; cbn; rewrite <- ?app_assoc, ?app_nil_r; reflexivity
             | exists 2%nat; split; [lia|]; cbn; rewrite <- ?app_assoc, ?app_nil_r; reflexivity ].
Qed.

(** ** Configuration (C8) *)

(** C8 (the code departs from the claim): the module-level code never
    exports the credentials.  Whatever [dl.cfg] is, and whatever the
    environment is, the run ends before line 13 with the environment
    and the store as they were, and [main] is not reached: on a file
    the parser takes (or a missing one) [config['AWS_ACCESS_KEY_ID']]
    either raises [KeyError] (no section of that name) or yields a
    section, which [os.environ] refuses with [TypeError]; on a file the
    parser rejects, [config.read] has raised already. *)
Theorem startup_never_exports tz file environ w :
  exists e, etl tz file environ w = (environ, w, Err e)
            /\ (e = KeyError "AWS_ACCESS_KEY_ID"
                \/ e = TypeError "str expected, not SectionProxy"
                \/ Config.read file = Err e).
Proof.
  unfold etl, Config.startup, Config.getitem.
  destruct (Config.read file) as [config|e]; cbn [rbind]; [|eauto].
  destruct (_ || _); cbn; eauto.
Qed.

Example startup_with_credentials :
  Config.startup (Config.Accepted aws_config) ∅ = Err (KeyError "AWS_ACCESS_KEY_ID").
Proof. vm_compute. reflexivity. Qed.

(** ** The join query (C1, C7) *)

(** C1 (the code departs from the claim): in a fresh session the join
    query does not succeed.  The text handed to [spark.sql] does not
    parse (its aliases are single-quoted strings), and [main] registers
    neither of the views the text names: for every store, the run
    raises, and the songplays table is left as it was. *)
Theorem join_query_fails_in_fresh_session tz st wr :
  let '(w', r) := main tz (mkWorld st ∅ wr) in
  is_ok r = false
  /\ catalog w' = ∅
  /\ storage w' !! (output_data +:+ "songplays_table/")
     = st !! (output_data +:+ "songplays_table/").
Proof.
  unfold main, create_spark_session, bind, ret.
  pose proof (song_stage_in_order input_data output_data (mkWorld st ∅ wr)) as Hs.
  pose proof (song_stage_catalog input_data output_data (mkWorld st ∅ wr)) as Hc.
  unfold writes_in_order in Hs.
  destruct (process_song_data _ _ _) as [w1 r1]. cbn in Hc.
  destruct Hs as (k & _ & _ & _ & _ & Hother).
  assert (Hsp : storage w1 !! (output_data +:+ "songplays_table/")
                = st !! (output_data +:+ "songplays_table/")).
  { apply Hother. unfold song_outputs.
    rewrite !elem_of_cons, elem_of_nil.
    intros [H|[H|[]]]; apply append_inj_l in H; discriminate. }
  destruct r1 as [[]|e]; [|done].
  pose proof (log_stage_stops_at_query tz input_data output_data w1) as Hl.
  pose proof (log_stage_catalog tz input_data output_data w1) as Hc'.
  destruct (process_log_data _ _ _ _) as [w2 r2]. cbn in Hc'.
  destruct Hl as (Hr & Hst & _).
  split; [done|]. split; [congruence|]. congruence.
Qed.

(** C7 (the code departs from the claim): on the scenario's two records,
    completed with the other fields of the data model, the run writes
    songs, artists, users and time, then raises at the join query; no
    songplays row is produced, and none is either when the session
    already holds the two views the query names, with these records in
    them.  On the two records exactly as the scenario lists them the
    run ends earlier still: the song record has no [artist_location],
    so the artists projection raises right after the songs table is
    written. *)
Theorem scenario_yields_no_songplays :
  is_ok (snd (main UTC full_world)) = false
  /\ storage (fst (main UTC full_world)) !! (output_data +:+ "songplays_table/") = None
  /\ written (fst (main UTC full_world))
     = [output_data +:+ "songs_table/"; output_data +:+ "artists_table/";
        output_data +:+ "users_table/"; output_data +:+ "time_table"]
  /\ is_ok (snd (main UTC (with_views [full_log] [full_song] full_world))) = false
  /\ storage (fst (main UTC (with_views [full_log] [full_song] full_world)))
       !! (output_data +:+ "songplays_table/") = None
  /\ is_ok (snd (main UTC scenario_world)) = false
  /\ written (fst (main UTC scenario_world)) = [output_data +:+ "songs_table/"].
Proof. vm_compute. repeat split; reflexivity. Qed.

(** ** Failure and partial output (C2) *)



(** ** No fact row (C6) *)

(** C6 (the code departs from the claim): no log event yields a fact
    row, matched by a song or not.  For every store and every session,
    one that holds the two views included, the log stage raises no
    later than the query, whose text [spark.sql] rejects; the write of
    the fact table is never reached.  The stage does not return, at
    most the users and time tables are written, and what was at the
    songplays path is still there. *)
Theorem no_event_yields_a_fact_row tz i o w :
  let '(w', r) := process_log_data tz i o w in
  is_ok r = false
  /\ storage w' !! (o +:+ "songplays_table/") = storage w !! (o +:+ "songplays_table/")
  /\ exists k : nat, (k <= 2)%nat /\ written w' = written w ++ take k (log_outputs o).
Proof. exact (log_stage_stops_at_query tz i o w). Qed.

(** So it is on an event that a song matches, in a session that holds
    the two views: the users and time tables are written, and no
    songplays table. *)
Example matched_event_with_views :
  let w := with_views [full_log] [full_song]
             (fst (process_song_data input_data output_data full_world)) in
  is_ok (snd (process_log_data UTC input_data output_data w)) = false
  /\ storage (fst (process_log_data UTC input_data output_data w))
       !! (output_data +:+ "songplays_table/") = None
  /\ written (fst (process_log_data UTC input_data output_data w))
     = [output_data +:+ "songs_table/"; output_data +:+ "artists_table/";
        output_data +:+ "users_table/"; output_data +:+ "time_table"].
Proof. vm_compute. repeat split; reflexivity. Qed.

(** ** Deduplication (C3) *)

Lemma dedup_by_spec {A K} `{EqDecision K} (key : A -> K) (l : list A) (seen : list K) :
  NoDup (map key (dedup_by key seen l))
  /\ (forall x, x ∈ dedup_by key seen l -> x ∈ l /\ key x ∉ seen).
Proof.
  revert seen. induction l as [|a l IH]; intros seen; cbn.
  - split; [constructor | intros x Hx; apply elem_of_nil in Hx; done].
  - destruct (decide (key a ∈ seen)) as [Hin|Hin].
    + destruct (IH seen) as [Hnd Hsub]. split; [done|].
      intros x Hx. destruct (Hsub x Hx). split; [apply elem_of_cons; auto | done].
    + destruct (IH (key a :: seen)) as [Hnd Hsub]. split.
      * cbn. apply NoDup_cons. split; [|done].
        intros Hk. apply list_elem_of_fmap in Hk as (x & Hkx & Hx).
        destruct (Hsub x Hx) as [_ Hn]. apply Hn. rewrite <- Hkx.
        apply elem_of_cons. auto.
      * intros x Hx. apply elem_of_cons in Hx as [->|Hx].
        -- split; [apply elem_of_cons; auto | done].
        -- destruct (Hsub x Hx) as [Hl Hn]. split; [apply elem_of_cons; auto|].
           intros Hs. apply Hn. apply elem_of_cons. auto.
Qed.

Lemma dropDuplicates_unique c df df' rows :
  dropDuplicates [c] df = Ok df' -> data df' = Ok rows -> NoDup (column c rows).
Proof.
  unfold dropDuplicates. destruct (has_columns [c] df); [|discriminate].
  intros [= <-]. cbn. destruct (data df) as [rs|]; [|discriminate].
  cbn. intros [= <-]. unfold column.
  pose proof (proj1 (dedup_by_spec (key_of [c]) rs [])) as Hnd.
  unfold key_of in Hnd. cbn in Hnd.
  rewrite <- (map_map (get c) (fun v => [v])) in Hnd.
  eapply NoDup_fmap_1. exact Hnd.
Qed.

Lemma dropDuplicates_sub cs df df' rows :
  dropDuplicates cs df = Ok df' -> data df' = Ok rows ->
  exists rs, data df = Ok rs /\ forall r, r ∈ rows -> r ∈ rs.
Proof.
  unfold dropDuplicates. destruct (has_columns cs df); [|discriminate].
  intros [= <-]. cbn. destruct (data df) as [rs|]; [|discriminate].
  cbn. intros [= <-]. exists rs. split; [done|].
  intros r Hr. apply (dedup_by_spec (key_of cs) rs []) in Hr. tauto.
Qed.

Ltac in_written H :=
  repeat first [ apply elem_of_app in H as [H|H]
               | apply elem_of_cons in H as [H|H]
               | apply elem_of_nil in H as [] ];
  try (apply append_inj_l in H; discriminate H).

Ltac written_case :=
  unfold written_table; cbn [fst snd written storage catalog];
  let Hin := fresh "Hin" in
  case_bool_decide as Hin; [|intros; discriminate];
  in_written Hin; map_lookup.

(** C3: every dimension table a stage writes has at most one row per
    key: no [song_id] occurs twice in the songs table, no [artist_id]
    twice in the artists table, no [userId] twice in the users table
    (a null key counts as a key). *)
Theorem dimension_keys_unique tz i o st cat :
  (forall t, written_table (fst (process_song_data i o (mkWorld st cat [])))
               (o +:+ "songs_table/") = Some t ->
             NoDup (column "song_id" (trows t)))
  /\ (forall t, written_table (fst (process_song_data i o (mkWorld st cat [])))
                  (o +:+ "artists_table/") = Some t ->
                NoDup (column "artist_id" (trows t)))
  /\ (forall t, written_table (fst (process_log_data tz i o (mkWorld st cat [])))
                  (o +:+ "users_table/") = Some t ->
                NoDup (column "userId" (trows t))).
Proof.
  split; [|split]; intros t.
  - unfold process_song_data, bind, lift, read_json, write_parquet.
    run; written_case; intros Ht; inversion Ht; subst; cbn; eauto using dropDuplicates_unique.
  - unfold process_song_data, bind, lift, read_json, write_parquet.
    run; written_case; intros Ht; inversion Ht; subst; cbn; eauto using dropDuplicates_unique.
  - unfold process_log_data, bind, lift, read_json, read_parquet, write_parquet,
      spark_sql_songplays.
    run; written_case; intros Ht; inversion Ht; subst; cbn; eauto using dropDuplicates_unique.
Qed.

(** On the scenario's complete records the three tables are written. *)
Example dimension_tables_written :
  let w1 := fst (process_song_data input_data output_data full_world) in
  let w2 := fst (process_log_data UTC input_data output_data full_world) in
  (length ∘ trows <$> written_table w1 (output_data +:+ "songs_table/")) = Some 1%nat
  /\ (length ∘ trows <$> written_table w1 (output_data +:+ "artists_table/")) = Some 1%nat
  /\ (length ∘ trows <$> written_table w2 (output_data +:+ "users_table/")) = Some 1%nat.
Proof. vm_compute. repeat split; reflexivity. Qed.

(** ** The unused projection (C9) *)

Lemma has_columns_true cs df :
  has_columns cs df = true <-> forall c, c ∈ cs -> c ∈ columns df.
Proof.
  unfold has_columns. induction cs as [|c cs IH]; cbn.
  - split; [intros _ c Hc; apply elem_of_nil in Hc; done | done].
  - rewrite andb_true_iff, bool_decide_eq_true, IH. split.
    + intros [H1 H2] c' Hc'. apply elem_of_cons in Hc' as [->|Hc']; auto.
    + intros H. split; [apply H; apply elem_of_cons; auto|].
      intros c' Hc'. apply H. apply elem_of_cons; auto.
Qed.

Lemma bind_unfold {A B} (m : M A) (k : A -> M B) w :
  bind m k w = match m w with
               | (w', Ok a) => k a w'
               | (w', Err e) => (w', Err e)
               end.
Proof. reflexivity. Qed.

(** C9, as amended: the projection of lines 74-75 is never read, and
    removing it changes neither the outcome of the stage nor any table,
    provided the log data has the six columns the projection selects
    (or there is no log data at all, in which case both raise at the
    read). *)
Theorem projection_removable tz i o w :
  (forall t, storage w !! (i +:+ "log_data/*/*/*.json") = Some t ->
             forall c, c ∈ projected_columns -> c ∈ tcolumns t) ->
  process_log_data tz i o w = process_log_data_without_projection tz i o w.
Proof.
  intros Hcols.
  unfold process_log_data, process_log_data_without_projection.
  rewrite !(bind_unfold (read_json _)).
  unfold read_json.
  destruct (storage w !! (i +:+ "log_data/*/*/*.json")) as [t|] eqn:Ht; [|reflexivity].
  rewrite (bind_unfold (lift (select projected_columns _))).
  unfold lift at 1. unfold select at 1.
  rewrite (proj2 (has_columns_true _ _)) by (apply (Hcols t eq_refl)).
  reflexivity.
Qed.

(** When one of the six columns is missing the projection is not a
    no-op: it raises, before anything is written. *)
Lemma projection_raises_first tz i o w t :
  storage w !! (i +:+ "log_data/*/*/*.json") = Some t ->
  ~ (forall c, c ∈ projected_columns -> c ∈ tcolumns t) ->
  process_log_data tz i o w = (w, Err (AnalysisException "cannot resolve column")).
Proof.
  intros Ht Hn.
  unfold process_log_data.
  rewrite (bind_unfold (read_json _)).
  unfold read_json. rewrite Ht.
  rewrite (bind_unfold (lift (select projected_columns _))).
  unfold lift at 1. unfold select at 1.
  destruct (has_columns _ _) eqn:E; [|reflexivity].
  exfalso. apply Hn. exact (proj1 (has_columns_true _ _) E).
Qed.

(** C9, counterexample: on log records without [userAgent] the script
    as written raises at the projection and writes nothing, while the
    script without the projection goes on to write the users and time
    tables (which need no [userAgent]): the stores differ. *)
Lemma projection_not_dead :
  storage (fst (process_log_data UTC input_data output_data world_without_agent))
  <> storage (fst (process_log_data_without_projection UTC input_data output_data
                     world_without_agent)).
Proof.
  intros H. apply (f_equal (fun m => m !! (output_data +:+ "users_table/"))) in H.
  vm_compute in H. discriminate H.
Qed.

Lemma projection_removable_witness :
  process_log_data UTC input_data output_data full_world
  = process_log_data_without_projection UTC input_data output_data full_world.
Proof.
  apply projection_removable.
  intros t Ht. vm_compute in Ht. injection Ht as <-.
  intros c Hc. vm_compute in Hc |- *.
  repeat (apply elem_of_cons in Hc as [->|Hc]; [ repeat first [ apply list_elem_of_here | apply list_elem_of_further ] | ]).
  apply elem_of_nil in Hc. done.
Defined.

(** ** Running twice (C5) *)









(** ** Dates and their text (C4, C10) *)

Section DatetimeText.
Local Open Scope Z_scope.

Lemma digit_cases (d : Z) (P : Z -> Prop) :
  0 <= d < 10 ->
  P 0 -> P 1 -> P 2 -> P 3 -> P 4 -> P 5 -> P 6 -> P 7 -> P 8 -> P 9 -> P d.
Proof.
  intros Hd. intros.
  assert (d = 0 \/ d = 1 \/ d = 2 \/ d = 3 \/ d = 4 \/ d = 5 \/ d = 6 \/ d = 7
          \/ d = 8 \/ d = 9) as Hc by lia.
  repeat (destruct Hc as [-> | Hc]; [assumption|]). subst. assumption.
Qed.

Lemma digit_val_char d : 0 <= d < 10 -> Py.digit_val (Py.digit_char d) = Some d.
Proof. intros Hd. pattern d. apply digit_cases; [exact Hd | reflexivity ..]. Qed.

Lemma digit_char_not_blank d : 0 <= d < 10 -> Spark.is_blank (Py.digit_char d) = false.
Proof. intros Hd. pattern d. apply digit_cases; [exact Hd | reflexivity ..]. Qed.

Lemma digits_S k n :
  digits (S k) n = Py.digit_char ((n / 10 ^ Z.of_nat k) mod 10) :: digits k n.
Proof. reflexivity. Qed.

Lemma digit_bound n k : 0 <= (n / 10 ^ Z.of_nat k) mod 10 < 10.
Proof. apply Z.mod_pos_bound. lia. Qed.

Lemma mod_pow_S n k :
  n mod 10 ^ Z.of_nat (S k)
  = ((n / 10 ^ Z.of_nat k) mod 10) * 10 ^ Z.of_nat k + n mod 10 ^ Z.of_nat k.
Proof.
  rewrite Nat2Z.inj_succ, Z.pow_succ_r by lia.
  assert (0 < 10 ^ Z.of_nat k) by (apply Z.pow_pos_nonneg; lia).
  rewrite (Z.mul_comm 10). rewrite Z.rem_mul_r by lia. lia.
Qed.

Lemma run_scan_digits k : forall n st rest,
  Spark.run_scan Spark.timestamp_step st (digits k n ++ rest)
  = Spark.run_scan Spark.timestamp_step (pushed k (n mod 10 ^ Z.of_nat k) st) rest.
Proof.
  induction k as [|k IH]; intros n st rest.
  - cbn [digits Py.fixed list_ascii_of_string app]. f_equal.
    destruct st as [sg cu po fd sgs]; unfold pushed; cbn [Spark.seg Spark.cur Spark.pos Spark.frac_digits Spark.segs].
    change (Z.of_nat 0) with 0. rewrite Z.pow_0_r, Z.mod_1_r.
    f_equal; [lia | lia | destruct (sg =? 6)%nat; lia].
  - rewrite digits_S. cbn [app Spark.run_scan].
    unfold Spark.timestamp_step at 1. rewrite digit_val_char by apply digit_bound.
    rewrite IH. f_equal. unfold pushed, Spark.push_digit; cbn.
    rewrite mod_pow_S. rewrite Nat2Z.inj_succ, Z.pow_succ_r by lia.
    f_equal; [lia | lia |].
    destruct (Spark.seg st =? 6)%nat; lia.
Qed.

Lemma chars_append (a b : string) :
  list_ascii_of_string (a +:+ b) = list_ascii_of_string a ++ list_ascii_of_string b.
Proof. induction a as [|c a IH]; simpl; [reflexivity | f_equal; exact IH]. Qed.

Lemma valid_bounds dt :
  Py.valid dt = true ->
  1 <= Py.year dt <= 9999 /\ 1 <= Py.month dt <= 12
  /\ 1 <= Py.day dt <= Calendar.days_in_month (Py.year dt) (Py.month dt)
  /\ 0 <= Py.hour dt <= 23 /\ 0 <= Py.minute dt <= 59
  /\ 0 <= Py.second dt <= 59 /\ 0 <= Py.microsecond dt <= 999999.
Proof.
  unfold Py.valid, Calendar.valid_date, Calendar.valid_time.
  rewrite !andb_true_iff, !Z.leb_le. tauto.
Qed.

Lemma days_in_month_le y m : Calendar.days_in_month y m <= 31.
Proof.
  unfold Calendar.days_in_month.
  repeat match goal with |- context [if ?b then _ else _] => destruct b end; lia.
Qed.

Lemma zero_padded_fixed k n : n < 10 ^ Z.of_nat k -> Py.zero_padded k n = Py.fixed k n.
Proof. intros H. unfold Py.zero_padded. apply Z.ltb_lt in H. by rewrite H. Qed.

Lemma str_datetime_chars dt :
  Py.valid dt = true ->
  list_ascii_of_string (Py.str_datetime dt) = datetime_chars dt.
Proof.
  intros Hv. apply valid_bounds in Hv as (Hy & Hm & Hd & Hh & Hmi & Hs & Hus).
  pose proof (days_in_month_le (Py.year dt) (Py.month dt)).
  unfold Py.str_datetime, datetime_chars, fraction_chars.
  rewrite !zero_padded_fixed by (cbn; lia).
  rewrite !chars_append. cbn [list_ascii_of_string app]. unfold digits.
  repeat (f_equal; try reflexivity; []).
  destruct (Py.microsecond dt =? 0); [reflexivity|].
  rewrite ?chars_append. reflexivity.
Qed.

Lemma trim_fix l :
  Spark.drop_blanks l = l -> Spark.drop_blanks (rev l) = rev l -> Spark.trim l = l.
Proof. intros H1 H2. unfold Spark.trim. rewrite H1, H2. apply rev_involutive. Qed.

Lemma trim_datetime_chars dt :
  Py.valid dt = true -> Spark.trim (datetime_chars dt) = datetime_chars dt.
Proof.
  intros Hv. apply trim_fix.
  - unfold datetime_chars. rewrite digits_S. cbn [app Spark.drop_blanks].
    by rewrite digit_char_not_blank by apply digit_bound.
  - unfold datetime_chars, fraction_chars.
    destruct (Py.microsecond dt =? 0).
    + rewrite !digits_S. cbn [digits Py.fixed list_ascii_of_string app rev].
      cbn [Spark.drop_blanks].
      by rewrite digit_char_not_blank by apply digit_bound.
    + rewrite !digits_S. cbn [digits Py.fixed list_ascii_of_string app rev].
      cbn [Spark.drop_blanks].
      by rewrite digit_char_not_blank by apply digit_bound.
Qed.

Lemma run_scan_sep st b rest st' :
  Spark.timestamp_step st b = Some st' ->
  Spark.run_scan Spark.timestamp_step st (b :: rest)
  = Spark.run_scan Spark.timestamp_step st' rest.
Proof. intros H. cbn [Spark.run_scan]. by rewrite H. Qed.

Ltac scan_field :=
  rewrite run_scan_digits;
  try (erewrite run_scan_sep
         by (unfold Spark.timestamp_step, pushed, Spark.close_segment, Spark.scan0;
             cbn [Spark.seg Spark.pos Spark.cur Spark.frac_digits Spark.segs];
             reflexivity));
  lazy beta iota zeta delta [Nat.add Nat.eqb Nat.ltb Nat.leb].

Lemma scan_datetime dt :
  Py.valid dt = true ->
  Spark.run_scan Spark.timestamp_step Spark.scan0 (datetime_chars dt)
  = Some (scanned dt).
Proof.
  intros Hv. apply valid_bounds in Hv as (Hy & Hm & Hd & Hh & Hmi & Hs & Hus).
  pose proof (days_in_month_le (Py.year dt) (Py.month dt)).
  unfold datetime_chars, scanned, fraction_chars.
  do 5 scan_field.
  change (Z.of_nat 4) with 4; change (Z.of_nat 2) with 2.
  rewrite !Z.mul_0_l, !Z.add_0_l, !Z.mod_small by lia.
  cbn [insert list_insert].
  destruct (Py.microsecond dt =? 0) eqn:Eus.
  - rewrite app_nil_r, <- (app_nil_r (digits 2 _)), run_scan_digits.
    cbn [Spark.run_scan]. f_equal. unfold pushed.
    cbn [Spark.seg Spark.pos Spark.cur Spark.frac_digits Spark.segs Nat.eqb Nat.add].
    change (Z.of_nat 2) with 2. rewrite Z.mod_small by lia. f_equal.
  - scan_field. rewrite <- (app_nil_r (digits 6 _)), run_scan_digits.
    cbn [Spark.run_scan]. f_equal. unfold pushed.
    cbn [Spark.seg Spark.pos Spark.cur Spark.frac_digits Spark.segs Nat.eqb Nat.add].
    change (Z.of_nat 2) with 2; change (Z.of_nat 6) with 6.
    rewrite !Z.mul_0_l, !Z.add_0_l, !Z.mod_small by lia.
    cbn [insert list_insert]. reflexivity.
Qed.

Lemma valid_for_spark dt :
  Py.valid dt = true ->
  Spark.valid_date (Py.year dt) (Py.month dt) (Py.day dt)
  && Calendar.valid_time (Py.hour dt) (Py.minute dt) (Py.second dt) (Py.microsecond dt)
  = true.
Proof.
  unfold Py.valid, Calendar.valid_date, Spark.valid_date.
  rewrite !andb_true_iff. tauto.
Qed.

Lemma timestamp_of_str tz dt :
  Py.valid dt = true ->
  Spark.string_to_timestamp tz (Py.str_datetime dt)
  = Some (to_instant tz (field_seconds dt) * 1000000 + Py.microsecond dt).
Proof.
  intros Hv. unfold Spark.string_to_timestamp.
  rewrite str_datetime_chars, trim_datetime_chars, scan_datetime by done.
  pose proof (valid_for_spark dt Hv) as Hs.
  pose proof (valid_bounds dt Hv) as (_ & _ & _ & _ & _ & _ & Hus).
  unfold scanned. destruct (Py.microsecond dt =? 0) eqn:Eus.
  - apply Z.eqb_eq in Eus.
    cbn [Spark.seg Spark.pos Spark.cur Spark.frac_digits Spark.segs Nat.eqb
         andb negb insert list_insert].
    unfold Spark.scale_fraction. cbn [Nat.leb Nat.sub Z.of_nat].
    rewrite Eus in Hs. rewrite Z.mul_0_l. rewrite Hs. rewrite Eus. reflexivity.
  - cbn [Spark.seg Spark.pos Spark.cur Spark.frac_digits Spark.segs Nat.eqb
         andb negb insert list_insert].
    unfold Spark.scale_fraction. cbn [Nat.leb Nat.sub Z.of_nat].
    rewrite Z.pow_0_r, Z.mul_1_r. rewrite Hs. reflexivity.
Qed.

Lemma digit_char_plain d :
  0 <= d < 10 ->
  Ascii.eqb (Py.digit_char d) " " = false
  /\ Ascii.eqb (Py.digit_char d) "T" = false
  /\ Ascii.eqb (Py.digit_char d) "-" = false.
Proof. intros Hd. pattern d. apply digit_cases; [exact Hd | done ..]. Qed.

Lemma scan_date_digits k : forall n st rest,
  Spark.scan_date st (digits k n ++ rest)
  = Spark.scan_date (pushed k (n mod 10 ^ Z.of_nat k) st) rest.
Proof.
  induction k as [|k IH]; intros n st rest.
  - cbn [digits Py.fixed list_ascii_of_string app]. f_equal.
    destruct st as [sg cu po fd sgs]; unfold pushed;
      cbn [Spark.seg Spark.cur Spark.pos Spark.frac_digits Spark.segs].
    change (Z.of_nat 0) with 0. rewrite Z.pow_0_r, Z.mod_1_r.
    f_equal; [lia | lia | destruct (sg =? 6)%nat; lia].
  - rewrite digits_S. cbn [app Spark.scan_date].
    destruct (digit_char_plain _ (digit_bound n k)) as (-> & -> & ->).
    rewrite andb_false_r. cbn [orb].
    rewrite digit_val_char by apply digit_bound.
    rewrite IH. f_equal. unfold pushed, Spark.push_digit; cbn.
    rewrite mod_pow_S. rewrite Nat2Z.inj_succ, Z.pow_succ_r by lia.
    f_equal; [lia | lia |].
    destruct (Spark.seg st =? 6)%nat; lia.
Qed.

Lemma date_of_str dt :
  Py.valid dt = true ->
  Spark.string_to_date (Py.str_datetime dt)
  = Some (Calendar.days_from_civil (Py.year dt) (Py.month dt) (Py.day dt)).
Proof.
  intros Hv. unfold Spark.string_to_date.
  rewrite str_datetime_chars, trim_datetime_chars by done.
  pose proof (valid_for_spark dt Hv) as Hs. apply andb_true_iff in Hs as [Hs _].
  apply valid_bounds in Hv as (Hy & Hm & Hd & Hh & Hmi & Hsec & Hus).
  pose proof (days_in_month_le (Py.year dt) (Py.month dt)).
  unfold datetime_chars.
  do 3 (rewrite scan_date_digits; unfold pushed;
        cbn [Spark.scan_date Spark.close_segment Spark.seg Spark.pos Spark.cur
             Spark.frac_digits Spark.segs Nat.eqb Nat.ltb Nat.leb Nat.add
             andb orb negb Ascii.eqb Bool.eqb]).
  cbn [insert list_insert bool_decide decide_rel].
  change (Z.of_nat 4) with 4; change (Z.of_nat 2) with 2.
  rewrite !Z.mul_0_l, !Z.add_0_l, !Z.mod_small by lia.
  by rewrite Hs.
Qed.

(** Day numbers and civil dates. *)
Lemma days_from_civil_from_days n :
  let '(y, m, d) := Calendar.civil_from_days n in Calendar.days_from_civil y m d = n.
Proof.
  unfold Calendar.civil_from_days, Calendar.days_from_civil. cbv zeta.
  set (z := n + 719468).
  assert (Hdoe : 0 <= z mod 146097 < 146097) by (apply Z.mod_pos_bound; lia).
  set (doe := z mod 146097) in *.
  set (yoe := (doe - doe / 1460 + doe / 36524 - doe / 146096) / 365).
  assert (Hyoe : 0 <= yoe <= 399) by (subst yoe; Z.div_mod_to_equations; lia).
  set (doy := doe - (365 * yoe + yoe / 4 - yoe / 100)).
  assert (Hdoy : 0 <= doy <= 365) by (subst doy yoe; Z.div_mod_to_equations; lia).
  set (mp := (5 * doy + 2) / 153).
  assert (Hmp : 0 <= mp <= 11) by (subst mp; Z.div_mod_to_equations; lia).
  assert (Hz : z = 146097 * (z / 146097) + doe) by (subst doe; apply Z.div_mod; lia).
  assert (Hq : (yoe + z / 146097 * 400) / 400 = z / 146097)
    by (Z.div_mod_to_equations; lia).
  assert (Hr : (yoe + z / 146097 * 400) mod 400 = yoe)
    by (Z.div_mod_to_equations; lia).
  destruct (mp <? 10) eqn:E.
  - apply Z.ltb_lt in E.
    replace (mp + 3 <=? 2) with false by (symmetry; apply Z.leb_gt; lia).
    replace (mp + 3 - 3) with mp by lia.
    rewrite Hq, Hr. subst doy z. lia.
  - apply Z.ltb_ge in E.
    replace (mp - 9 <=? 2) with true by (symmetry; apply Z.leb_le; lia).
    replace (mp - 9 + 9) with mp by lia.
    replace (yoe + z / 146097 * 400 + 1 - 1) with (yoe + z / 146097 * 400) by lia.
    rewrite Hq, Hr. subst doy z. lia.
Qed.

Lemma fromtimestamp_ok tz f dt :
  Py.fromtimestamp tz f = Ok dt -> Py.valid dt = true /\ shown_in tz dt.
Proof.
  unfold Py.fromtimestamp.
  destruct (Float64.trunc f) as [ip|]; [|discriminate].
  destruct (Float64.round_half_even _) as [us0|]; [|discriminate].
  destruct (if 1000000 <=? us0 then _ else _) as [secs us].
  destruct (Calendar.civil_from_days _) as [[y m] d] eqn:Ec.
  destruct (Py.valid _ && _ && _) eqn:Ev; [|discriminate].
  intros [= <-]. apply andb_true_iff in Ev as [Ev _]. apply andb_true_iff in Ev as [Ev _].
  split; [exact Ev|]. exists secs. cbn. rewrite Ec. auto.
Qed.

Lemma shown_days tz dt :
  shown_in tz dt ->
  exists secs, field_seconds dt = secs + utc_offset tz secs
    /\ Calendar.days_from_civil (Py.year dt) (Py.month dt) (Py.day dt)
       = (secs + utc_offset tz secs) / 86400.
Proof.
  intros (secs & Hc & Hh & Hm & Hs). exists secs.
  pose proof (days_from_civil_from_days ((secs + utc_offset tz secs) / 86400)) as Hd.
  rewrite Hc in Hd. split; [|exact Hd].
  unfold field_seconds. rewrite Hd, Hh, Hm, Hs.
  set (l := secs + utc_offset tz secs). Z.div_mod_to_equations. lia.
Qed.

Lemma hour_of_str tz dt :
  Py.valid dt = true -> shown_in tz dt ->
  Spark.hour tz (VStr (Py.str_datetime dt)) = VInt (Py.hour dt).
Proof.
  intros Hv Hs. unfold Spark.hour, Spark.as_timestamp.
  rewrite timestamp_of_str by done. cbn [fmap option_fmap option_map Spark.int_or_null].
  f_equal. unfold Spark.local_seconds.
  apply valid_bounds in Hv as (_ & _ & _ & _ & _ & _ & Hus).
  replace ((to_instant tz (field_seconds dt) * 1000000 + Py.microsecond dt) / 1000000)
    with (to_instant tz (field_seconds dt)) by (Z.div_mod_to_equations; lia).
  destruct Hs as (secs & Hc & Hh & Hm & Hsec).
  destruct (shown_days tz dt) as (secs' & Hf & _);
    [exists secs; auto|].
  rewrite Hf, (resolves tz secs').
  rewrite <- Hf.
  destruct (shown_days tz dt) as (s2 & Hf2 & _); [exists secs; auto|].
  clear Hf secs'.
  assert (field_seconds dt = secs + utc_offset tz secs) as ->.
  { pose proof (days_from_civil_from_days ((secs + utc_offset tz secs) / 86400)) as Hd.
    rewrite Hc in Hd. unfold field_seconds. rewrite Hd, Hh, Hm, Hsec.
    Z.div_mod_to_equations. lia. }
  symmetry. exact Hh.
Qed.

Lemma date_parts_of_str tz dt :
  Py.valid dt = true -> shown_in tz dt ->
  Spark.dayofmonth tz (VStr (Py.str_datetime dt)) = VInt (Py.day dt)
  /\ Spark.month tz (VStr (Py.str_datetime dt)) = VInt (Py.month dt)
  /\ Spark.year tz (VStr (Py.str_datetime dt)) = VInt (Py.year dt)
  /\ Spark.weekofyear tz (VStr (Py.str_datetime dt))
     = VInt (Calendar.iso_week
               (Calendar.days_from_civil (Py.year dt) (Py.month dt) (Py.day dt))).
Proof.
  intros Hv (secs & Hc & _).
  unfold Spark.dayofmonth, Spark.month, Spark.year, Spark.weekofyear, Spark.as_date.
  rewrite date_of_str by done. cbn [fmap option_fmap option_map Spark.int_or_null].
  pose proof (days_from_civil_from_days ((secs + utc_offset tz secs) / 86400)) as Hd.
  rewrite Hc in Hd. rewrite Hd, Hc. auto.
Qed.

End DatetimeText.

Lemma traverse_ok_elem {A B} (f : A -> result B) l l' :
  traverse f l = Ok l' -> forall y, y ∈ l' -> exists x, x ∈ l /\ f x = Ok y.
Proof.
  revert l'. induction l as [|a l IH]; intros l'; cbn.
  - intros [= <-] y Hy. apply elem_of_nil in Hy. done.
  - destruct (f a) as [b|] eqn:Ea; [|discriminate]. cbn.
    destruct (traverse f l) as [bs|]; [|discriminate]. cbn.
    intros [= <-] y Hy. apply elem_of_cons in Hy as [->|Hy].
    + exists a. split; [apply elem_of_cons; auto | done].
    + destruct (IH bs eq_refl y Hy) as (x & Hx & Hfx).
      exists x. split; [apply elem_of_cons; auto | done].
Qed.

Lemma field_set_field_eq c v r : field c (set_field c v r) = Some v.
Proof.
  induction r as [|[c' v'] r IH]; cbn.
  - by rewrite decide_True.
  - destruct (decide (c = c')) as [->|Hne]; cbn.
    + by rewrite decide_True.
    + by rewrite decide_False.
Qed.

Lemma field_set_field_ne c c' v r : c <> c' -> field c' (set_field c v r) = field c' r.
Proof.
  intros Hne. induction r as [|[c0 v0] r IH]; cbn.
  - by rewrite decide_False.
  - destruct (decide (c = c0)) as [->|Hne0]; cbn.
    + by rewrite !decide_False.
    + destruct (decide (c' = c0)); [done | exact IH].
Qed.

Lemma get_set_field_eq c v r : get c (set_field c v r) = v.
Proof. unfold get. by rewrite field_set_field_eq. Qed.

Lemma get_set_field_ne c c' v r : c <> c' -> get c' (set_field c v r) = get c' r.
Proof. intros H. unfold get. by rewrite field_set_field_ne. Qed.

Lemma withColumn_rows c f df rows :
  data (withColumn c f df) = Ok rows ->
  exists rs, data df = Ok rs
    /\ forall r', r' ∈ rows -> exists r v, r ∈ rs /\ f r = Ok v /\ r' = set_field c v r.
Proof.
  unfold withColumn. cbn. destruct (data df) as [rs|]; [|discriminate]. cbn.
  intros Ht. exists rs. split; [done|]. intros r' Hr'.
  destruct (traverse_ok_elem _ _ _ Ht r' Hr') as (r & Hr & Hf).
  destruct (f r) as [v|] eqn:Ef; [|discriminate]. cbn in Hf. injection Hf as <-.
  exists r, v. auto.
Qed.

Lemma time_rows_spec tz (df : DataFrame) a a' rows :
  select_exprs ["datetime"] (time_exprs tz)
    (withColumn "datetime" (fun r => get_datetime tz (get "ts" r))
       (withColumn "timestamp" (fun r => get_timestamp (get "ts" r)) df)) = Ok a ->
  dropDuplicates ["start_time"] a = Ok a' ->
  data a' = Ok rows ->
  forall rt, rt ∈ rows ->
    exists ls e v, data df = Ok ls /\ e ∈ ls
      /\ get_datetime tz (get "ts" e) = Ok v /\ rt = time_row tz v.
Proof.
  intros Hsel Hdd Hrows rt Hrt.
  destruct (dropDuplicates_sub _ _ _ _ Hdd Hrows) as (rs & Hrs & Hsub).
  apply Hsub in Hrt. clear Hsub Hdd Hrows.
  remember (withColumn "timestamp" (fun r => get_timestamp (get "ts" r)) df) as df1 eqn:Edf1.
  remember (withColumn "datetime" (fun r => get_datetime tz (get "ts" r)) df1) as df2 eqn:Edf2.
  unfold select_exprs in Hsel. destruct (has_columns _ _); [|discriminate].
  injection Hsel as <-. cbn [data] in Hrs.
  destruct (data df2) as [rs2|] eqn:E2; [|discriminate].
  cbn in Hrs. injection Hrs as <-.
  apply list_elem_of_fmap in Hrt as (r2 & -> & Hr2).
  rewrite Edf2 in E2.
  destruct (withColumn_rows _ _ _ _ E2) as (rs1 & E1 & H2).
  destruct (H2 r2 Hr2) as (r1 & v & Hr1 & Hv & ->).
  rewrite Edf1 in E1.
  destruct (withColumn_rows _ _ _ _ E1) as (ls & E0 & H1).
  destruct (H1 r1 Hr1) as (e & v' & He & _ & ->).
  rewrite get_set_field_ne in Hv by discriminate.
  exists ls, e, v. repeat split; try done.
  unfold time_row. cbn [map time_exprs fst snd].
  by rewrite !get_set_field_eq.
Qed.

Lemma get_datetime_ok tz x v :
  get_datetime tz x = Ok v ->
  exists dt, v = VStr (Py.str_datetime dt) /\ Py.valid dt = true /\ shown_in tz dt.
Proof.
  unfold get_datetime.
  destruct (Py.int x) as [z|]; [|discriminate]. cbn [rbind].
  destruct (Py.truediv_1000_0 z) as [f|]; [|discriminate]. cbn [rbind].
  destruct (Py.fromtimestamp tz f) as [dt|] eqn:Ef; [|discriminate]. cbn [rbind].
  intros [= <-]. exists dt. split; [done|]. exact (fromtimestamp_ok _ _ _ Ef).
Qed.

(** The time table the log stage writes: its rows are the rows
    [time_row] builds from the strings [get_datetime] returns on the
    log events. *)
Lemma log_stage_time_rows tz i o st cat t :
  written_table (fst (process_log_data tz i o (mkWorld st cat [])))
    (o +:+ "time_table") = Some t ->
  NoDup (column "start_time" (trows t))
  /\ forall rt, rt ∈ trows t ->
       exists tin e v, st !! (i +:+ "log_data/*/*/*.json") = Some tin
         /\ e ∈ trows tin
         /\ get_datetime tz (get "ts" e) = Ok v /\ rt = time_row tz v.
Proof.
  unfold process_log_data, bind, lift, read_json, read_parquet, write_parquet,
    spark_sql_songplays.
  run; written_case; intros Ht; inversion Ht; subst; cbn [trows].
  all: (split; [eauto using dropDuplicates_unique|]).
  all: intros rt Hrt.
  all: match goal with
       | Hs : select_exprs _ _ _ = Ok ?a, Hd : dropDuplicates ["start_time"] ?a = Ok ?a',
         Hr : data ?a' = Ok _ |- _ =>
           destruct (time_rows_spec _ _ _ _ _ Hs Hd Hr rt Hrt)
             as (? & ? & ? & Hls & ? & ? & ?)
       end.
  all: cbn [data] in Hls; injection Hls as <-.
  all: eauto 10.
Qed.

(** C4: in the time table the log stage writes, no [start_time] occurs
    twice, and every row is the decomposition of its own [start_time]:
    there is a valid calendar datetime [dt], the local datetime of a log
    event's [ts], such that [start_time] is the text of [dt] and [hour],
    [day], [month] and [year] are the fields of [dt], [week] being the
    ISO week of its date. *)
Theorem time_table_consistent tz i o st cat t :
  written_table (fst (process_log_data tz i o (mkWorld st cat [])))
    (o +:+ "time_table") = Some t ->
  NoDup (column "start_time" (trows t))
  /\ forall rt, rt ∈ trows t ->
       exists dt : Py.datetime,
         Py.valid dt = true
         /\ (exists tin e, st !! (i +:+ "log_data/*/*/*.json") = Some tin
               /\ e ∈ trows tin
               /\ get_datetime tz (get "ts" e) = Ok (VStr (Py.str_datetime dt)))
         /\ get "start_time" rt = VStr (Py.str_datetime dt)
         /\ get "hour" rt = VInt (Py.hour dt)
         /\ get "day" rt = VInt (Py.day dt)
         /\ get "week" rt
            = VInt (Calendar.iso_week
                      (Calendar.days_from_civil (Py.year dt) (Py.month dt) (Py.day dt)))
         /\ get "month" rt = VInt (Py.month dt)
         /\ get "year" rt = VInt (Py.year dt).
Proof.
  intros Ht. destruct (log_stage_time_rows _ _ _ _ _ _ Ht) as [Hnd Hrows].
  split; [exact Hnd|]. intros rt Hrt.
  destruct (Hrows rt Hrt) as (tin & e & v & Htin & He & Hv & ->).
  destruct (get_datetime_ok _ _ _ Hv) as (dt & -> & Hvalid & Hshown).
  exists dt. split; [exact Hvalid|]. split; [eauto|].
  destruct (date_parts_of_str tz dt Hvalid Hshown) as (Hd & Hm & Hy & Hw).
  unfold time_row, get; cbn.
  rewrite (hour_of_str tz dt Hvalid Hshown), Hd, Hm, Hy, Hw. auto 10.
Qed.


Lemma scenario_time_table_written :
  written_table (fst (process_log_data UTC input_data output_data
                        (mkWorld (storage full_world) ∅ [])))
    (output_data +:+ "time_table") = Some scenario_time_table.
Proof. vm_compute. reflexivity. Defined.

Lemma time_table_consistent_witness :
  written_table (fst (process_log_data UTC input_data output_data
                        (mkWorld (storage full_world) ∅ [])))
    (output_data +:+ "time_table") = Some scenario_time_table
  /\ NoDup (column "start_time" (trows scenario_time_table))
  /\ exists dt, Py.valid dt = true
       /\ Py.str_datetime dt = "2018-11-15 00:41:21.796000"
       /\ Py.hour dt = 0%Z /\ Py.day dt = 15%Z /\ Py.month dt = 11%Z
       /\ Py.year dt = 2018%Z.
Proof.
  split; [exact scenario_time_table_written|].
  destruct (time_table_consistent UTC input_data output_data (storage full_world) ∅
              scenario_time_table scenario_time_table_written) as [Hnd Hrows].
  split; [exact Hnd|].
  destruct (Hrows (time_row UTC (VStr "2018-11-15 00:41:21.796000")))
    as (dt & Hv & _ & Hs & Hh & Hd & _ & Hm & Hy).
  { apply elem_of_cons. left. vm_compute. reflexivity. }
  exists dt.
  replace (get "start_time" (time_row UTC (VStr "2018-11-15 00:41:21.796000")))
    with (VStr "2018-11-15 00:41:21.796000") in Hs by (vm_compute; reflexivity).
  replace (get "hour" (time_row UTC (VStr "2018-11-15 00:41:21.796000")))
    with (VInt 0) in Hh by (vm_compute; reflexivity).
  replace (get "day" (time_row UTC (VStr "2018-11-15 00:41:21.796000")))
    with (VInt 15) in Hd by (vm_compute; reflexivity).
  replace (get "month" (time_row UTC (VStr "2018-11-15 00:41:21.796000")))
    with (VInt 11) in Hm by (vm_compute; reflexivity).
  replace (get "year" (time_row UTC (VStr "2018-11-15 00:41:21.796000")))
    with (VInt 2018) in Hy by (vm_compute; reflexivity).
  injection Hs as Hs. injection Hh as Hh. injection Hd as Hd.
  injection Hm as Hm. injection Hy as Hy.
  repeat split; congruence.
Defined.

(** The example of the specification. *)
Example time_row_2023_03_15 :
  get_datetime UTC (VInt 1678874400000) = Ok (VStr "2023-03-15 10:00:00")
  /\ time_row UTC (VStr "2023-03-15 10:00:00")
     = [ ("start_time", VStr "2023-03-15 10:00:00"); ("hour", VInt 10);
         ("day", VInt 15); ("week", VInt 11); ("month", VInt 3);
         ("year", VInt 2023) ].
Proof. vm_compute. split; reflexivity. Qed.

(** * What the stages need and what they write *)

(** ** Columns *)



Lemma get_head c v r : get c ((c, v) :: r) = v.
Proof. unfold get. cbn. by rewrite decide_True. Qed.

Lemma get_project c cs r : c ∈ cs -> get c (project cs r) = get c r.
Proof.
  unfold get, project. induction cs as [|c' cs IH]; intros Hc.
  - apply elem_of_nil in Hc. done.
  - cbn. destruct (decide (c = c')) as [->|Hne]; [done|].
    apply elem_of_cons in Hc as [->|Hc]; [done | auto].
Qed.

Ltac member := repeat first [ apply list_elem_of_here | apply list_elem_of_further ].



(** [run], looking into the frames as well. *)
Ltac run_frames :=
  repeat (cbn [fst snd storage catalog written is_ok data columns] in *;
          match goal with
          | H : (_, _) = (_, _) |- _ => inversion H; subst; clear H
          | H : Ok _ = Ok _ |- _ => inversion H; subst; clear H
          | H : Ok _ = Err _ |- _ => discriminate H
          | H : Err _ = Ok _ |- _ => discriminate H
          | H : context [match ?x with _ => _ end] |- _ => destruct x eqn:?
          | |- context [match ?x with _ => _ end] => destruct x eqn:?
          end).


(** ** The song stage *)



Lemma dedup_by_complete {A K} `{EqDecision K} (key : A -> K) (l : list A) :
  forall seen x, x ∈ l -> key x ∈ seen \/ key x ∈ map key (dedup_by key seen l).
Proof.
  induction l as [|a l IH]; intros seen x Hx; [apply elem_of_nil in Hx; done|].
  cbn. apply elem_of_cons in Hx as [->|Hx].
  - destruct (decide (key a ∈ seen)); [auto|]. right. cbn. apply elem_of_cons. auto.
  - destruct (decide (key a ∈ seen)); [auto|].
    destruct (IH (key a :: seen) x Hx) as [Hs|Hs].
    + apply elem_of_cons in Hs as [->|Hs]; [|auto].
      right. cbn. apply elem_of_cons. auto.
    + right. cbn. apply elem_of_cons. auto.
Qed.

Lemma dedup_dimension key cols parts input :
  key ∈ cols ->
  dimension_of key cols parts input
    (mkTable cols parts (dedup_by (key_of [key]) [] (map (project cols) input))).
Proof.
  intros Hk. unfold dimension_of. cbn [tcolumns partitioned_by trows].
  split; [done|]. split; [done|]. split.
  - intros row Hrow. apply (dedup_by_spec (key_of [key])) in Hrow as [Hrow _].
    apply list_elem_of_fmap in Hrow as (r & -> & Hr). eauto.
  - intros r Hr.
    assert (Hin : project cols r ∈ map (project cols) input)
      by (apply list_elem_of_fmap; eauto).
    destruct (dedup_by_complete (key_of [key]) _ [] _ Hin) as [Hs|Hs];
      [apply elem_of_nil in Hs; done|].
    apply list_elem_of_fmap in Hs as (row & Hkey & Hrow).
    unfold key_of in Hkey. cbn in Hkey. injection Hkey as Hkey.
    rewrite get_project in Hkey by done.
    unfold column. apply list_elem_of_fmap. exists row. auto.
Qed.

(** The songs and artists tables hold the song data and nothing else:
    each has the columns the stage selects (the songs table partitioned
    by year and artist), each row is a song record cut down to those
    columns, and no [song_id], respectively [artist_id], of the data is
    missing from its table. *)
Theorem song_tables_content i o st cat :
  (forall t, written_table (fst (process_song_data i o (mkWorld st cat [])))
               (o +:+ "songs_table/") = Some t ->
     exists tin, st !! (i +:+ "song_data/*/*/*/*.json") = Some tin
       /\ dimension_of "song_id" ["song_id"; "title"; "artist_id"; "year"; "duration"]
            ["year"; "artist_id"] (trows tin) t)
  /\ (forall t, written_table (fst (process_song_data i o (mkWorld st cat [])))
                  (o +:+ "artists_table/") = Some t ->
        exists tin, st !! (i +:+ "song_data/*/*/*/*.json") = Some tin
          /\ dimension_of "artist_id"
               ["artist_id"; "artist_name"; "artist_location"; "artist_latitude";
                "artist_longitude"] [] (trows tin) t).
Proof.
  split; intros t.
  - unfold process_song_data, bind, lift, read_json, write_parquet, select, dropDuplicates.
    run; written_case; intros Ht; inversion Ht; subst; clear Ht;
      cbn [data rmap rbind] in *; run.
    all: eexists; (split; [reflexivity|]); apply dedup_dimension; member.
  - unfold process_song_data, bind, lift, read_json, write_parquet, select, dropDuplicates.
    run; written_case; intros Ht; inversion Ht; subst; clear Ht;
      cbn [data rmap rbind] in *; run.
    all: eexists; (split; [reflexivity|]); apply dedup_dimension; member.
Qed.

(** After a song stage that returned, line 108 finds the songs table
    and reads it back with the partition columns moved last: [song_id],
    [title], [duration], then [year] and [artist_id].  The frame has no
    [artist_name], the column the join condition compares with the
    event's artist. *)
Theorem songs_read_back i o w :
  is_ok (snd (process_song_data i o w)) = true ->
  read_parquet (o +:+ "songs_table/") (fst (process_song_data i o w))
  = (fst (process_song_data i o w),
     Ok ["song_id"; "title"; "duration"; "year"; "artist_id"]).
Proof.
  unfold process_song_data, bind, lift, read_json, write_parquet, select, dropDuplicates.
  run_frames; try discriminate. intros _.
  unfold read_parquet. cbn [fst snd storage catalog written]. map_lookup.
  reflexivity.
Qed.

Lemma songs_read_back_witness :
  read_parquet (output_data +:+ "songs_table/")
    (fst (process_song_data input_data output_data full_world))
  = (fst (process_song_data input_data output_data full_world),
     Ok ["song_id"; "title"; "duration"; "year"; "artist_id"]).
Proof.
  apply (songs_read_back input_data output_data full_world).
  vm_compute. reflexivity.
Defined.

(** ** The log stage: users and time *)

(** The users table holds every user of the log: each row is a log
    record cut down to the five user columns, and no [userId] of the log
    is missing, whatever the page of its events (nothing is filtered). *)
Theorem users_table_content tz i o st cat t :
  written_table (fst (process_log_data tz i o (mkWorld st cat [])))
    (o +:+ "users_table/") = Some t ->
  exists tin, st !! (i +:+ "log_data/*/*/*.json") = Some tin
    /\ dimension_of "userId" ["userId"; "firstName"; "lastName"; "gender"; "level"]
         [] (trows tin) t.
Proof.
  unfold process_log_data, bind, lift, read_json, read_parquet, write_parquet,
    spark_sql_songplays.
  unfold select at 2. unfold dropDuplicates at 1.
  run; written_case; intros Ht; inversion Ht; subst; clear Ht;
    cbn [data rmap rbind] in *; run.
  all: eexists; (split; [reflexivity|]); apply dedup_dimension; member.
Qed.

Lemma users_table_content_witness :
  exists tin, storage full_world !! (input_data +:+ "log_data/*/*/*.json") = Some tin
    /\ dimension_of "userId" ["userId"; "firstName"; "lastName"; "gender"; "level"]
         [] (trows tin) scenario_users_table.
Proof.
  apply (users_table_content UTC input_data output_data (storage full_world) ∅
           scenario_users_table).
  vm_compute. reflexivity.
Defined.



Lemma traverse_complete {A B} (f : A -> result B) l l' :
  traverse f l = Ok l' -> forall x, x ∈ l -> exists y, y ∈ l' /\ f x = Ok y.
Proof.
  revert l'. induction l as [|a l IH]; intros l'; cbn.
  - intros _ x Hx. apply elem_of_nil in Hx. done.
  - destruct (f a) as [b|] eqn:Ea; [|discriminate]. cbn.
    destruct (traverse f l) as [bs|]; [|discriminate]. cbn.
    intros [= <-] x Hx. apply elem_of_cons in Hx as [->|Hx].
    + exists b. split; [apply elem_of_cons; auto | done].
    + destruct (IH bs eq_refl x Hx) as (y & Hy & Hfx).
      exists y. split; [apply elem_of_cons; auto | done].
Qed.



(** The rows of the log data with the two derived columns. *)
Lemma datetime_frame_rows tz tin rs2 :
  data (datetime_frame tz tin) = Ok rs2 ->
  (forall e, e ∈ trows tin ->
     exists v' v, get_timestamp (get "ts" e) = Ok v'
       /\ get_datetime tz (get "ts" e) = Ok v
       /\ set_field "datetime" v (set_field "timestamp" v' e) ∈ rs2)
  /\ (forall r2, r2 ∈ rs2 ->
        exists e v' v, e ∈ trows tin /\ get_timestamp (get "ts" e) = Ok v'
          /\ get_datetime tz (get "ts" e) = Ok v
          /\ r2 = set_field "datetime" v (set_field "timestamp" v' e)).
Proof.
  unfold datetime_frame, withColumn. cbn [data rbind].
  destruct (traverse _ (trows tin)) as [rs1|] eqn:E1; [|discriminate]. cbn [rbind].
  intros E2. split.
  - intros e He.
    destruct (traverse_complete _ _ _ E1 e He) as (r1 & Hr1 & Hf1).
    destruct (get_timestamp (get "ts" e)) as [v'|] eqn:Ev'; [|discriminate].
    cbn in Hf1. injection Hf1 as <-.
    destruct (traverse_complete _ _ _ E2 _ Hr1) as (r2 & Hr2 & Hf2).
    rewrite get_set_field_ne in Hf2 by discriminate.
    destruct (get_datetime tz (get "ts" e)) as [v|] eqn:Ev; [|discriminate].
    cbn in Hf2. injection Hf2 as <-. eauto.
  - intros r2 Hr2.
    destruct (traverse_ok_elem _ _ _ E2 r2 Hr2) as (r1 & Hr1 & Hf2).
    destruct (traverse_ok_elem _ _ _ E1 r1 Hr1) as (e & He & Hf1).
    destruct (get_timestamp (get "ts" e)) as [v'|] eqn:Ev'; [|discriminate].
    cbn in Hf1. injection Hf1 as <-.
    rewrite get_set_field_ne in Hf2 by discriminate.
    destruct (get_datetime tz (get "ts" e)) as [v|] eqn:Ev; [|discriminate].
    cbn in Hf2. injection Hf2 as <-. eauto 10.
Qed.

Lemma time_rows_sound tz tin rows :
  time_rows tz tin = Ok rows ->
  forall rt, rt ∈ rows ->
    exists e v, e ∈ trows tin /\ get_datetime tz (get "ts" e) = Ok v /\ rt = time_row tz v.
Proof.
  unfold time_rows. destruct (data (datetime_frame tz tin)) as [rs2|] eqn:E; [|discriminate].
  cbn [rmap rbind]. intros [= <-] rt Hrt.
  apply (dedup_by_spec (key_of ["start_time"])) in Hrt as [Hrt _].
  apply list_elem_of_fmap in Hrt as (r2 & -> & Hr2).
  destruct (proj2 (datetime_frame_rows _ _ _ E) r2 Hr2) as (e & v' & v & He & _ & Hv & ->).
  exists e, v. split; [done|]. split; [done|].
  unfold time_row. cbn [map time_exprs fst snd]. by rewrite !get_set_field_eq.
Qed.

Lemma time_rows_complete tz tin rows :
  time_rows tz tin = Ok rows ->
  forall e, e ∈ trows tin ->
    exists v, get_datetime tz (get "ts" e) = Ok v /\ v ∈ column "start_time" rows.
Proof.
  unfold time_rows. destruct (data (datetime_frame tz tin)) as [rs2|] eqn:E; [|discriminate].
  cbn [rmap rbind]. intros [= <-] e He.
  destruct (proj1 (datetime_frame_rows _ _ _ E) e He) as (v' & v & _ & Hv & Hr2).
  exists v. split; [done|].
  set (g := fun r : Row => map (fun e => (fst e, snd e r)) (time_exprs tz)).
  assert (Hin : g (set_field "datetime" v (set_field "timestamp" v' e)) ∈ map g rs2)
    by (apply list_elem_of_fmap; eauto).
  destruct (dedup_by_complete (key_of ["start_time"]) _ [] _ Hin) as [Hs|Hs];
    [apply elem_of_nil in Hs; done|].
  apply list_elem_of_fmap in Hs as (row & Hkey & Hrow).
  unfold column. apply list_elem_of_fmap. exists row. split; [|done].
  unfold key_of in Hkey. cbn [map] in Hkey. injection Hkey as Hkey.
  rewrite <- Hkey. unfold g. cbn [map time_exprs fst snd].
  rewrite get_head. by rewrite get_set_field_eq.
Qed.





(** When the log stage has written the time table, the log data was
    there, and the table holds [time_rows]. *)
Lemma time_table_written_inv tz i o st cat t :
  written_table (fst (process_log_data tz i o (mkWorld st cat [])))
    (o +:+ "time_table") = Some t ->
  exists tin rows, st !! (i +:+ "log_data/*/*/*.json") = Some tin
    /\ time_rows tz tin = Ok rows
    /\ t = mkTable ["start_time"; "hour"; "day"; "week"; "month"; "year"]
             ["year"; "month"] rows.
Proof.
  unfold process_log_data, bind, lift, read_json, read_parquet, write_parquet,
    spark_sql_songplays, select, dropDuplicates, select_exprs.
  run_frames; written_case; intros Ht; inversion Ht; subst; clear Ht.
  all: eexists; eexists; (split; [reflexivity|]); (split; [|reflexivity]).
  all: match goal with
       | H : _ = Ok ?rows |- time_rows _ _ = Ok ?rows => exact H
       end.
Qed.

(** The [start_time]s of the time table are exactly the datetimes of the
    log events: every event's datetime is the [start_time] of a row,
    whatever the event's page, and every [start_time] is the datetime of
    an event. *)
Theorem time_table_start_times tz i o st cat t :
  written_table (fst (process_log_data tz i o (mkWorld st cat [])))
    (o +:+ "time_table") = Some t ->
  exists tin, st !! (i +:+ "log_data/*/*/*.json") = Some tin
    /\ (forall e, e ∈ trows tin ->
          exists v, get_datetime tz (get "ts" e) = Ok v
                    /\ v ∈ column "start_time" (trows t))
    /\ (forall v, v ∈ column "start_time" (trows t) ->
          exists e, e ∈ trows tin /\ get_datetime tz (get "ts" e) = Ok v).
Proof.
  intros Ht.
  destruct (time_table_written_inv _ _ _ _ _ _ Ht) as (tin & rows & Htin & Hrows & ->).
  exists tin. split; [exact Htin|]. cbn [trows]. split.
  - exact (time_rows_complete _ _ _ Hrows).
  - intros v Hv. unfold column in Hv. apply list_elem_of_fmap in Hv as (rt & -> & Hrt).
    destruct (time_rows_sound _ _ _ Hrows rt Hrt) as (e & v & He & Hv & ->).
    exists e. split; [done|]. unfold time_row. by rewrite get_head.
Qed.

Lemma time_table_start_times_witness :
  exists tin,
    storage full_world !! (input_data +:+ "log_data/*/*/*.json") = Some tin
    /\ (forall e, e ∈ trows tin ->
          exists v, get_datetime UTC (get "ts" e) = Ok v
                    /\ v ∈ column "start_time" (trows scenario_time_table))
    /\ (forall v, v ∈ column "start_time" (trows scenario_time_table) ->
          exists e, e ∈ trows tin /\ get_datetime UTC (get "ts" e) = Ok v).
Proof.
  exact (time_table_start_times UTC input_data output_data (storage full_world) ∅
           scenario_time_table scenario_time_table_written).
Defined.

Lemma iso_weeks_52_53 y :
  Calendar.iso_weeks_in_year y = 52%Z \/ Calendar.iso_weeks_in_year y = 53%Z.
Proof. unfold Calendar.iso_weeks_in_year. destruct (_ || _); auto. Qed.

Lemma iso_week_range n : (1 <= Calendar.iso_week n <= 53)%Z.
Proof.
  unfold Calendar.iso_week. destruct (Calendar.civil_from_days n) as [[y m] d].
  cbv zeta. destruct (_ <? 1)%Z eqn:E1.
  - destruct (iso_weeks_52_53 (y - 1)) as [-> | ->]; lia.
  - destruct (Calendar.iso_weeks_in_year y <? _)%Z eqn:E2; [lia|].
    apply Z.ltb_ge in E1, E2.
    destruct (iso_weeks_52_53 y) as [H|H]; rewrite H in E2; lia.
Qed.

(** No field of a time table row is null or out of range: [hour] is in
    0..23, [day] in 1..31, [week] in 1..53, [month] in 1..12 and [year]
    in 1..9999.  The partition columns are among them. *)
Theorem time_table_in_range tz i o st cat t :
  written_table (fst (process_log_data tz i o (mkWorld st cat [])))
    (o +:+ "time_table") = Some t ->
  forall rt, rt ∈ trows t ->
    exists h d w m y : Z,
      get "hour" rt = VInt h /\ get "day" rt = VInt d /\ get "week" rt = VInt w
      /\ get "month" rt = VInt m /\ get "year" rt = VInt y
      /\ (0 <= h <= 23 /\ 1 <= d <= 31 /\ 1 <= w <= 53
          /\ 1 <= m <= 12 /\ 1 <= y <= 9999)%Z.
Proof.
  intros Ht rt Hrt.
  destruct (time_table_written_inv _ _ _ _ _ _ Ht) as (tin & rows & _ & Hrows & ->).
  destruct (time_rows_sound _ _ _ Hrows rt Hrt) as (e & v & _ & Hv & ->).
  destruct (get_datetime_ok _ _ _ Hv) as (dt & -> & Hvalid & Hshown).
  destruct (date_parts_of_str tz dt Hvalid Hshown) as (Hd & Hm & Hy & Hw).
  pose proof (hour_of_str tz dt Hvalid Hshown) as Hh.
  pose proof (valid_bounds dt Hvalid) as (By & Bm & Bd & Bh & _).
  pose proof (days_in_month_le (Py.year dt) (Py.month dt)).
  pose proof (iso_week_range
                (Calendar.days_from_civil (Py.year dt) (Py.month dt) (Py.day dt))) as Bw.
  unfold time_row. rewrite Hh, Hd, Hm, Hy, Hw.
  set (wk := Calendar.iso_week _) in *. clearbody wk.
  exists (Py.hour dt), (Py.day dt), wk, (Py.month dt), (Py.year dt).
  repeat split; try reflexivity; lia.
Qed.

Lemma time_table_in_range_witness :
  exists h d w m y : Z,
    get "hour" (time_row UTC (VStr "2018-11-15 00:41:21.796000")) = VInt h
    /\ get "day" (time_row UTC (VStr "2018-11-15 00:41:21.796000")) = VInt d
    /\ get "week" (time_row UTC (VStr "2018-11-15 00:41:21.796000")) = VInt w
    /\ get "month" (time_row UTC (VStr "2018-11-15 00:41:21.796000")) = VInt m
    /\ get "year" (time_row UTC (VStr "2018-11-15 00:41:21.796000")) = VInt y
    /\ (0 <= h <= 23 /\ 1 <= d <= 31 /\ 1 <= w <= 53
        /\ 1 <= m <= 12 /\ 1 <= y <= 9999)%Z.
Proof.
  apply (time_table_in_range UTC input_data output_data (storage full_world) ∅
           scenario_time_table scenario_time_table_written).
  apply elem_of_cons. left. vm_compute. reflexivity.
Defined.



(** ** The log stage and the run as a whole *)







(** [main] touches nothing but its five output paths: the session's
    catalog is as it was (no view is registered or dropped), and so is
    every other path of the store, the two input datasets among them. *)
Theorem main_leaves_inputs_and_session tz w :
  catalog (fst (main tz w)) = catalog w
  /\ (forall p, p ∉ song_outputs output_data ++ log_outputs output_data ->
        storage (fst (main tz w)) !! p = storage w !! p)
  /\ storage (fst (main tz w)) !! song_path = storage w !! song_path
  /\ storage (fst (main tz w)) !! log_path = storage w !! log_path.
Proof.
  assert (Hframe : catalog (fst (main tz w)) = catalog w
    /\ forall p, p ∉ song_outputs output_data ++ log_outputs output_data ->
         storage (fst (main tz w)) !! p = storage w !! p).
  { unfold main, create_spark_session, bind, ret.
    pose proof (song_stage_in_order input_data output_data w) as Hs.
    pose proof (song_stage_catalog input_data output_data w) as Hc.
    unfold writes_in_order in Hs.
    destruct (process_song_data input_data output_data w) as [w1 r1].
    cbn [fst snd] in *. destruct Hs as (k & _ & _ & _ & _ & Hout).
    destruct r1 as [[]|e]; cbn [fst].
    - pose proof (log_stage_in_order tz input_data output_data w1) as Hl.
      pose proof (log_stage_catalog tz input_data output_data w1) as Hc'.
      unfold writes_in_order in Hl.
      destruct (process_log_data tz input_data output_data w1) as [w2 r2].
      cbn [fst snd] in *. destruct Hl as (k' & _ & _ & _ & _ & Hout').
      split; [congruence|]. intros p Hp. apply not_elem_of_app in Hp as [Hp1 Hp2].
      rewrite (Hout' p Hp2). exact (Hout p Hp1).
    - split; [exact Hc|]. intros p Hp. apply not_elem_of_app in Hp as [Hp1 _].
      exact (Hout p Hp1). }
  destruct Hframe as [Hcat Hst]. split; [exact Hcat|]. split; [exact Hst|].
  split; apply Hst; unfold song_outputs, log_outputs, song_path, log_path;
    cbn [app]; rewrite !elem_of_cons, elem_of_nil;
    intros [H|[H|[H|[H|[H|[]]]]]]; vm_compute in H; discriminate H.
Qed.

(** ** Which error the module-level code ends with *)

(** A [dl.cfg] the parser rejects (one that gives its options under
    no section header, say) ends the script at line 10 with the
    parser's error.  A missing [dl.cfg], and any accepted one without a
    section named [AWS_ACCESS_KEY_ID], end it with [KeyError] at line
    12; an accepted file with a section of that name ends it with
    [TypeError] at the same line.  No option of any section is read,
    and the environment plays no part. *)
Theorem startup_error_kind environ :
  Config.startup Config.Missing environ = Err (KeyError "AWS_ACCESS_KEY_ID")
  /\ (forall what,
        Config.startup (Config.Rejected what) environ = Err (ConfigParserError what))
  /\ forall config,
       (Config.sections config !! "AWS_ACCESS_KEY_ID" = None ->
        Config.startup (Config.Accepted config) environ
        = Err (KeyError "AWS_ACCESS_KEY_ID"))
       /\ (is_Some (Config.sections config !! "AWS_ACCESS_KEY_ID") ->
           Config.startup (Config.Accepted config) environ
           = Err (TypeError "str expected, not SectionProxy")).
Proof.
  split; [reflexivity|]. split; [reflexivity|]. intros config.
  unfold Config.startup, Config.getitem. cbn [Config.read rbind].
  split.
  - intros ->. rewrite (bool_decide_eq_false_2 (is_Some None)) by (intros [? [=]]).
    reflexivity.
  - intros Hs. rewrite (bool_decide_eq_true_2 _ Hs). rewrite orb_true_r. reflexivity.
Qed.
